(** * Session lifecycle, authorized request pipeline and route guard

    A shallow embedding of the client-side authentication code of the
    front end:

    - [contexts/AuthContext.js]: the two axios interceptors, the [authAPI]
      calls, and the [AuthProvider] component (current-user query, init
      effect, login / register / logout / password mutations);
    - [pages/Auth/OAuthCallback.js]: [handleCallback];
    - [App.js]: [ProtectedRoute], [PublicRoute] and the route table of [App].

    Browser and library state that the code reads or writes is threaded
    explicitly through a [World] record; every handler is a function on
    worlds.  The backend is an oracle: each call is given the [Reply] the
    server (or the network) produces for it. *)

From Stdlib Require Import Ascii.
From stdpp Require Import gmap strings list fin_maps.

Local Open Scope string_scope.

(** ** JavaScript values *)

(** Truthiness of a [string | null] value, as tested by [if (token)],
    [!token] and [!!localStorage.getItem(..)]: [null] and the empty string
    are falsy. *)
Definition truthy (v : option string) : bool :=
  match v with
  | Some s => negb (String.eqb s "")
  | None => false
  end.

(** [a || b] on [string | undefined] with a string default. *)
Definition or_default (v : option string) (d : string) : string :=
  if truthy v then default d v else d.

(** ** Data *)

Record User := mkUser {
  user_id : string;
  email : string;
  full_name : string
}.

#[global] Instance User_eq_dec : EqDecision User.
Proof. solve_decision. Defined.

(** The request configuration object axios hands to interceptors.
    [_retry] is the marker the response interceptor sets on it; a config
    that never went through the interceptor has it [undefined] (falsy). *)
Record RequestConfig := mkConfig {
  url : string;
  method : string;
  data : option string;
  headers : gmap string string;
  _retry : bool
}.

#[global] Instance RequestConfig_eq_dec : EqDecision RequestConfig.
Proof. solve_decision. Defined.

Definition set_headers (h : gmap string string) (c : RequestConfig) : RequestConfig :=
  {| url := url c; method := method c; data := data c; headers := h; _retry := _retry c |}.

Definition set_retry (b : bool) (c : RequestConfig) : RequestConfig :=
  {| url := url c; method := method c; data := data c; headers := headers c; _retry := b |}.

(** [error.response], with [error.response.data.detail]. *)
Record ErrorResponse := mkErrorResponse {
  status : Z;
  detail : option string
}.

#[global] Instance ErrorResponse_eq_dec : EqDecision ErrorResponse.
Proof. solve_decision. Defined.

(** The error axios rejects with: the request's config and, when the server
    answered at all, its response ([response] is [undefined] on a network
    failure). *)
Record AxiosError := mkAxiosError {
  config : RequestConfig;
  response : option ErrorResponse
}.

#[global] Instance AxiosError_eq_dec : EqDecision AxiosError.
Proof. solve_decision. Defined.

(** A settled promise. *)
Inductive Promise (A : Type) : Type :=
| Resolved (a : A)
| Rejected (e : AxiosError).
Arguments Resolved {A} a.
Arguments Rejected {A} e.

(** What comes back for one request: a 2xx body, or a failure with the
    server's response if there is one. *)
Inductive Reply (A : Type) : Type :=
| Success (body : A)
| Failure (resp : option ErrorResponse).
Arguments Success {A} body.
Arguments Failure {A} resp.

(** Body of a successful login or register. *)
Record AuthData := mkAuthData {
  access_token : string;
  data_user : User
}.

Inductive Toast :=
| toast_success_msg (msg : string)
| toast_error_msg (msg : string).

#[global] Instance Toast_eq_dec : EqDecision Toast.
Proof. solve_decision. Defined.

(** ** The world the code runs in *)

Record World := mkWorld {
  localStorage : gmap string string;   (* window.localStorage *)
  location_assigns : list string;      (* assignments to window.location.href, latest first *)
  history : list string;               (* router navigate(..) calls, latest first *)
  user : option User;                  (* useState(null) of AuthProvider *)
  isInitialized : bool;                (* useState(false) of AuthProvider *)
  query_isLoading : bool;              (* isLoading of the ['currentUser'] query *)
  queryCache : gmap string User;       (* react-query cache *)
  toasts : list Toast;                 (* notifications shown, latest first *)
  console : list string;               (* console.log lines, latest first *)
  sent : list RequestConfig            (* requests put on the wire, latest first *)
}.

Definition Action := World → World.

Definition seq (a b : Action) (w : World) : World := b (a w).
Notation "a >>> b" := (seq a b) (at level 61, left associativity).

Definition skip (w : World) : World := w.

Definition with_localStorage (f : gmap string string → gmap string string) (w : World) : World :=
  {| localStorage := f (localStorage w); location_assigns := location_assigns w;
     history := history w; user := user w; isInitialized := isInitialized w;
     query_isLoading := query_isLoading w; queryCache := queryCache w;
     toasts := toasts w; console := console w; sent := sent w |}.

Definition window_location_href (target : string) (w : World) : World :=
  {| localStorage := localStorage w; location_assigns := target :: location_assigns w;
     history := history w; user := user w; isInitialized := isInitialized w;
     query_isLoading := query_isLoading w; queryCache := queryCache w;
     toasts := toasts w; console := console w; sent := sent w |}.

Definition navigate (target : string) (w : World) : World :=
  {| localStorage := localStorage w; location_assigns := location_assigns w;
     history := target :: history w; user := user w; isInitialized := isInitialized w;
     query_isLoading := query_isLoading w; queryCache := queryCache w;
     toasts := toasts w; console := console w; sent := sent w |}.

Definition setUser (u : option User) (w : World) : World :=
  {| localStorage := localStorage w; location_assigns := location_assigns w;
     history := history w; user := u; isInitialized := isInitialized w;
     query_isLoading := query_isLoading w; queryCache := queryCache w;
     toasts := toasts w; console := console w; sent := sent w |}.

Definition setIsInitialized (b : bool) (w : World) : World :=
  {| localStorage := localStorage w; location_assigns := location_assigns w;
     history := history w; user := user w; isInitialized := b;
     query_isLoading := query_isLoading w; queryCache := queryCache w;
     toasts := toasts w; console := console w; sent := sent w |}.

Definition set_query_isLoading (b : bool) (w : World) : World :=
  {| localStorage := localStorage w; location_assigns := location_assigns w;
     history := history w; user := user w; isInitialized := isInitialized w;
     query_isLoading := b; queryCache := queryCache w;
     toasts := toasts w; console := console w; sent := sent w |}.

Definition with_queryCache (f : gmap string User → gmap string User) (w : World) : World :=
  {| localStorage := localStorage w; location_assigns := location_assigns w;
     history := history w; user := user w; isInitialized := isInitialized w;
     query_isLoading := query_isLoading w; queryCache := f (queryCache w);
     toasts := toasts w; console := console w; sent := sent w |}.

Definition push_toast (t : Toast) (w : World) : World :=
  {| localStorage := localStorage w; location_assigns := location_assigns w;
     history := history w; user := user w; isInitialized := isInitialized w;
     query_isLoading := query_isLoading w; queryCache := queryCache w;
     toasts := t :: toasts w; console := console w; sent := sent w |}.

Definition console_log (line : string) (w : World) : World :=
  {| localStorage := localStorage w; location_assigns := location_assigns w;
     history := history w; user := user w; isInitialized := isInitialized w;
     query_isLoading := query_isLoading w; queryCache := queryCache w;
     toasts := toasts w; console := line :: console w; sent := sent w |}.

Definition put_on_wire (c : RequestConfig) (w : World) : World :=
  {| localStorage := localStorage w; location_assigns := location_assigns w;
     history := history w; user := user w; isInitialized := isInitialized w;
     query_isLoading := query_isLoading w; queryCache := queryCache w;
     toasts := toasts w; console := console w; sent := c :: sent w |}.

(** [localStorage.getItem / setItem / removeItem]. *)
Definition getItem (key : string) (w : World) : option string := localStorage w !! key.
Definition setItem (key value : string) : Action := with_localStorage (insert key value).
Definition removeItem (key : string) : Action := with_localStorage (delete key).

Definition toast_success (msg : string) : Action := push_toast (toast_success_msg msg).
Definition toast_error (msg : string) : Action := push_toast (toast_error_msg msg).

Definition queryClient_setQueryData (key : string) (u : User) : Action :=
  with_queryCache (insert key u).
Definition queryClient_clear : Action := with_queryCache (λ _, ∅).

(** ** Authorized request pipeline (AuthContext.js, lines 13-47) *)

(** [axios.interceptors.request.use] success handler. *)
Definition request_onFulfilled (w : World) (cfg : RequestConfig) : RequestConfig :=
  let token := getItem "accessToken" w in
  if truthy token
  then set_headers (<["Authorization" := "Bearer " +:+ default "" token]> (headers cfg)) cfg
  else cfg.

(** [error.response?.status === 401]. *)
Definition status_is_401 (error : AxiosError) : bool :=
  match response error with
  | Some r => bool_decide (status r = 401%Z)
  | None => false
  end.

(** [axios.interceptors.response.use] error handler.  The handler marks
    [error.config] in place, so the error it rejects with carries the
    marked config.  Both branches end in [Promise.reject(error)]. *)
Definition response_onRejected {A} (error : AxiosError) (w : World) : World * Promise A :=
  let originalRequest := config error in
  if status_is_401 error && negb (_retry originalRequest) then
    let error' := {| config := set_retry true originalRequest; response := response error |} in
    ((removeItem "accessToken" >>> removeItem "refreshToken" >>>
      window_location_href "/auth/login") w,
     Rejected error')
  else (w, Rejected error).

(** One call through axios: the request interceptor runs on the config, the
    request goes out, and the reply comes back through the response
    interceptor (identity on success). *)
Definition axios_request {A} (cfg : RequestConfig) (reply : Reply A) (w : World)
  : World * Promise A :=
  let cfg' := request_onFulfilled w cfg in
  let w1 := put_on_wire cfg' w in
  match reply with
  | Success body => (w1, Resolved body)
  | Failure resp => response_onRejected {| config := cfg'; response := resp |} w1
  end.

Definition new_config (m target : string) (body : option string) : RequestConfig :=
  {| url := target; method := m; data := body; headers := ∅; _retry := false |}.

Definition axios_post {A} (target : string) (body : option string) :=
  @axios_request A (new_config "post" target body).
Definition axios_get {A} (target : string) :=
  @axios_request A (new_config "get" target None).

(** ** authAPI (AuthContext.js, lines 50-91) *)

(** Request bodies are carried as opaque strings: nothing in the pipeline
    or the session store looks inside them. *)

Module authAPI.

Definition login (credentials : string) (reply : Reply AuthData) :=
  axios_post "/api/auth/login" (Some credentials) reply.

Definition register (userData : string) (reply : Reply AuthData) :=
  axios_post "/api/auth/register" (Some userData) reply.

Definition getCurrentUser (reply : Reply User) :=
  axios_get "/api/auth/me" reply.

(** The [try]/[catch] turns a rejected call into a logged line; the
    function itself always resolves. *)
Definition logout (reply : Reply unit) (w : World) : World * Promise unit :=
  match axios_post "/api/auth/logout" None reply w with
  | (w1, Resolved _) => (w1, Resolved tt)
  | (w1, Rejected _) => (console_log "Logout error:" w1, Resolved tt)
  end.

Definition forgotPassword (email : string) (reply : Reply unit) :=
  axios_post "/api/auth/forgot-password" (Some email) reply.

Definition resetPassword (token newPassword : string) (reply : Reply unit) :=
  axios_post "/api/auth/reset-password" (Some (token +:+ newPassword)) reply.

End authAPI.

(** ** AuthProvider (AuthContext.js, lines 93-212) *)

(** react-query's [useMutation]: run the mutation function, then
    [onSuccess] or [onError] by its outcome, then [onSettled]. *)
Definition useMutation {A} (mutationFn : World → World * Promise A)
    (onSuccess : A → Action) (onError : AxiosError → Action) (onSettled : Action)
  : World → World * Promise A := λ w,
  match mutationFn w with
  | (w1, Resolved a) => ((onSuccess a >>> onSettled) w1, Resolved a)
  | (w1, Rejected e) => ((onError e >>> onSettled) w1, Rejected e)
  end.

(** [error.response?.data?.detail || fallback]. *)
Definition error_message (error : AxiosError) (fallback : string) : string :=
  or_default (response error ≫= detail) fallback.

(** [enabled: !!localStorage.getItem('accessToken')]. *)
Definition currentUser_enabled (w : World) : bool := truthy (getItem "accessToken" w).

Definition currentUser_onSuccess (body : User) : Action :=
  setUser (Some body) >>> setIsInitialized true.

Definition currentUser_onError (error : AxiosError) : Action :=
  console_log "Auth error:" >>> removeItem "accessToken" >>>
  setUser None >>> setIsInitialized true.

(** The ['currentUser'] query once its fetch settles ([retry: false]):
    react-query caches a result and leaves the loading state, then calls
    the matching callback. *)
Definition currentUser_settle (reply : Reply User) (w : World) : World :=
  match authAPI.getCurrentUser reply w with
  | (w1, Resolved body) =>
      (with_queryCache (insert "currentUser" body) >>> set_query_isLoading false >>>
       currentUser_onSuccess body) w1
  | (w1, Rejected e) => (set_query_isLoading false >>> currentUser_onError e) w1
  end.

(** The ['currentUser'] query fetching again on a running page, and the
    fetch settling: after a render found the query enabled (a login or
    register, a token stored by the OAuth callback) or after
    [invalidateQueries('currentUser')] (profile settings, credits page).  A
    disabled query does not fetch.  The callbacks are those of the first
    fetch; a failed refetch leaves the cached entry as it was. *)
Definition currentUser_refetch (reply : Reply User) (w : World) : World :=
  if currentUser_enabled w then currentUser_settle reply w else w.

(** [useEffect(() => { ... }, [])]. *)
Definition init_effect (w : World) : World :=
  let token := getItem "accessToken" w in
  if negb (truthy token) then setIsInitialized true w else w.

(** A render of [AuthProvider]: an enabled query with nothing cached and no
    fetch in flight starts fetching (and reports [isLoading]). *)
Definition AuthProvider_render (w : World) : World :=
  if currentUser_enabled w && negb (query_isLoading w)
     && bool_decide (queryCache w !! "currentUser" = None)
  then set_query_isLoading true w else w.

(** First mount on a page load: fresh component and query state, first
    render, then the effect. *)
Definition AuthProvider_mount : Action :=
  setUser None >>> setIsInitialized false >>>
  set_query_isLoading false >>> queryClient_clear >>>
  AuthProvider_render >>> init_effect.

(** Session resolution at startup: mount, and, if the query was enabled,
    the settling of its fetch. *)
Definition initialize (reply : Reply User) (w : World) : World :=
  let w1 := AuthProvider_mount w in
  if query_isLoading w1 then currentUser_settle reply w1 else w1.

Definition login_onSuccess (body : AuthData) : Action :=
  setItem "accessToken" (access_token body) >>>
  setUser (Some (data_user body)) >>>
  queryClient_setQueryData "currentUser" (data_user body) >>>
  toast_success "Welcome back!".

Definition login_onError (error : AxiosError) : Action :=
  toast_error (error_message error "Login failed").

Definition loginMutation (credentials : string) (reply : Reply AuthData) :=
  useMutation (authAPI.login credentials reply) login_onSuccess login_onError skip.

Definition register_onSuccess (body : AuthData) : Action :=
  setItem "accessToken" (access_token body) >>>
  setUser (Some (data_user body)) >>>
  queryClient_setQueryData "currentUser" (data_user body) >>>
  toast_success "Account created successfully!".

Definition register_onError (error : AxiosError) : Action :=
  toast_error (error_message error "Registration failed").

Definition registerMutation (userData : string) (reply : Reply AuthData) :=
  useMutation (authAPI.register userData reply) register_onSuccess register_onError skip.

Definition logout_onSettled : Action :=
  removeItem "accessToken" >>> removeItem "refreshToken" >>>
  setUser None >>> queryClient_clear >>>
  toast_success "Logged out successfully".

Definition logoutMutation (reply : Reply unit) :=
  useMutation (authAPI.logout reply) (λ _, skip) (λ _, skip) logout_onSettled.

Definition forgotPasswordMutation (email : string) (reply : Reply unit) :=
  useMutation (authAPI.forgotPassword email reply)
    (λ _, toast_success "Password reset email sent!")
    (λ error, toast_error (error_message error "Failed to send reset email"))
    skip.

Definition resetPasswordMutation (token password : string) (reply : Reply unit) :=
  useMutation (authAPI.resetPassword token password reply)
    (λ _, toast_success "Password reset successfully!")
    (λ error, toast_error (error_message error "Password reset failed"))
    skip.

(** The context value handed to consumers of [useAuth()]. *)
Record AuthValue := mkAuthValue {
  ctx_user : option User;
  isLoading : bool;
  isAuthenticated : bool
}.

Definition useAuth (w : World) : AuthValue :=
  {| ctx_user := user w;
     isLoading := query_isLoading w || negb (isInitialized w);
     isAuthenticated := bool_decide (is_Some (user w)) |}.

(** The session operations as the context exposes them. *)
Definition login (credentials : string) (reply : Reply AuthData) : Action :=
  λ w, fst (loginMutation credentials reply w).
Definition register (userData : string) (reply : Reply AuthData) : Action :=
  λ w, fst (registerMutation userData reply w).
Definition logout (reply : Reply unit) : Action :=
  λ w, fst (logoutMutation reply w).
Definition forgotPassword (email : string) (reply : Reply unit) : Action :=
  λ w, fst (forgotPasswordMutation email reply w).
Definition resetPassword (token password : string) (reply : Reply unit) : Action :=
  λ w, fst (resetPasswordMutation token password reply w).

(** ** OAuth callback (OAuthCallback.js, lines 12-37) *)

(** [URLSearchParams.get]: the first value given for the name, or [null]. *)
Fixpoint searchParams_get (searchParams : list (string * string)) (name : string)
  : option string :=
  match searchParams with
  | [] => None
  | (k, v) :: rest => if String.eqb k name then Some v else searchParams_get rest name
  end.

Definition handleCallback (searchParams : list (string * string)) : Action :=
  let token := searchParams_get searchParams "token" in
  let error := searchParams_get searchParams "error" in
  if truthy error then
    toast_error ("Authentication failed: " +:+ default "" error) >>>
    navigate "/auth/login"
  else if truthy token then
    setItem "accessToken" (default "" token) >>>
    toast_success "Successfully signed in!" >>>
    navigate "/dashboard"
  else
    toast_error "No authentication token received" >>>
    navigate "/auth/login".

(** ** Route guard (App.js) *)

Inductive Element :=
| LoadingScreen
| Navigate (to : string) (replace : bool)
| LoginPage | RegisterPage | OAuthCallback
| DashboardPage | EmailsPage | CalendarPage | AnalyticsPage
| SettingsPage | IntegrationsPage | CreditsPage
| AuthLayout (children : Element)
| DashboardLayout (children : Element)
| AppDiv (children : Element).

#[global] Instance Element_eq_dec : EqDecision Element.
Proof. solve_decision. Defined.

Definition ProtectedRoute (auth : AuthValue) (children : Element) : Element :=
  if isLoading auth then LoadingScreen
  else if negb (bool_decide (is_Some (ctx_user auth))) then Navigate "/auth/login" true
  else children.

Definition PublicRoute (auth : AuthValue) (children : Element) : Element :=
  if isLoading auth then LoadingScreen
  else if bool_decide (is_Some (ctx_user auth)) then Navigate "/dashboard" true
  else children.

(** The router compares path segments without regard to letter case (its
    routes are not marked [caseSensitive]): the letters A to Z are folded,
    every other character counts as itself. *)
Definition ascii_lower (c : ascii) : ascii :=
  let n := nat_of_ascii c in
  if (65 <=? n)%nat && (n <=? 90)%nat then ascii_of_nat (n + 32) else c.

Fixpoint lower (s : string) : string :=
  match s with
  | EmptyString => EmptyString
  | String c rest => String (ascii_lower c) (lower rest)
  end.

Definition eqb_nocase (a b : string) : bool := String.eqb (lower a) (lower b).

(** A nested [<Routes>] block whose routes are single segments: the route
    whose path is the whole remaining location, else the [*] route. *)
Fixpoint route_lookup (routes : list (string * Element)) (segment : string)
  : option Element :=
  match routes with
  | [] => None
  | (p, e) :: rest => if eqb_nocase p segment then Some e else route_lookup rest segment
  end.

Definition auth_routes (rest : list string) : Element :=
  let star := Navigate "/auth/login" true in
  match rest with
  | [segment] =>
      default star
        (route_lookup [("login", LoginPage); ("register", RegisterPage);
                       ("callback", OAuthCallback)] segment)
  | _ => star
  end.

Definition app_routes (location : list string) : Element :=
  let star := Navigate "/dashboard" true in
  match location with
  | [] => Navigate "/dashboard" true
  | [segment] =>
      default star
        (route_lookup [("dashboard", DashboardPage); ("emails", EmailsPage);
                       ("calendar", CalendarPage); ("analytics", AnalyticsPage);
                       ("settings", SettingsPage); ("integrations", IntegrationsPage);
                       ("credits", CreditsPage)] segment)
  | _ => star
  end.

(** The top-level [<Routes>]: [/auth/*] is the public zone, [/*] the
    protected one.  A location is its list of path segments. *)
Definition is_public (location : list string) : bool :=
  match location with
  | first :: _ => eqb_nocase first "auth"
  | [] => false
  end.

Definition App (w : World) (location : list string) : Element :=
  let auth := useAuth w in
  if isLoading auth then LoadingScreen
  else
    AppDiv
      (if is_public location
       then PublicRoute (useAuth w) (AuthLayout (auth_routes (tail location)))
       else ProtectedRoute (useAuth w) (DashboardLayout (app_routes location))).

(** Every [<Navigate>] an element contains replaces the history entry. *)
Fixpoint redirects_replace (e : Element) : bool :=
  match e with
  | Navigate _ r => r
  | AuthLayout c | DashboardLayout c | AppDiv c => redirects_replace c
  | _ => true
  end.

(** ** Operations on the session *)

(** Everything in these files that can touch the session, with the input
    the outside world supplies to it. *)
Inductive Op :=
| OpInitialize (reply : Reply User)
| OpLogin (credentials : string) (reply : Reply AuthData)
| OpRegister (userData : string) (reply : Reply AuthData)
| OpLogout (reply : Reply unit)
| OpForgotPassword (email : string) (reply : Reply unit)
| OpResetPassword (token password : string) (reply : Reply unit)
| OpOAuthCallback (searchParams : list (string * string))
| OpRequest (cfg : RequestConfig) (reply : Reply unit)
| OpRefetch (reply : Reply User).

Definition run (op : Op) : Action :=
  match op with
  | OpInitialize reply => initialize reply
  | OpLogin credentials reply => login credentials reply
  | OpRegister userData reply => register userData reply
  | OpLogout reply => logout reply
  | OpForgotPassword email reply => forgotPassword email reply
  | OpResetPassword token password reply => resetPassword token password reply
  | OpOAuthCallback searchParams => handleCallback searchParams
  | OpRequest cfg reply => λ w, fst (axios_request cfg reply w)
  | OpRefetch reply => currentUser_refetch reply
  end.

(** The session as the spec sees it: is a token stored, is a user set. *)
Definition token_present (w : World) : bool := truthy (getItem "accessToken" w).
Definition user_present (w : World) : bool := bool_decide (is_Some (user w)).
Definition session_consistent (w : World) : Prop := token_present w = user_present w.

(** Sample data for the examples below. *)
Definition alice : User := mkUser "u1" "a@b.com" "Alice".
Definition bob : User := mkUser "u2" "b@b.com" "Bob".

Definition blank : World :=
  {| localStorage := ∅; location_assigns := []; history := []; user := None;
     isInitialized := false; query_isLoading := false; queryCache := ∅;
     toasts := []; console := []; sent := [] |}.

(** A page showing the app with [alice] signed in under token ["t1"]. *)
Definition signed_in : World :=
  (setItem "accessToken" "t1" >>> setUser (Some alice) >>> setIsInitialized true >>>
   queryClient_setQueryData "currentUser" alice) blank.

(** A page showing the app with nobody signed in. *)
Definition anonymous : World := setIsInitialized true blank.

(** ** The claims of the specification, as stated *)



(** C3 as stated: what the guards render once the store is initialized. *)
Definition guard_decision_when_initialized (w : World) (children : Element) : Prop :=
  isInitialized w = true →
  (user w = None → ProtectedRoute (useAuth w) children = Navigate "/auth/login" true) ∧
  (is_Some (user w) → PublicRoute (useAuth w) children = Navigate "/dashboard" true) ∧
  (is_Some (user w) → ProtectedRoute (useAuth w) children = children) ∧
  (user w = None → PublicRoute (useAuth w) children = children).

(** C7 as stated: a stored token disappears only on a 401 or on logout. *)
Definition reply_status {A} (reply : Reply A) : option Z :=
  match reply with
  | Failure resp => status <$> resp
  | Success _ => None
  end.

Definition op_reply_status (op : Op) : option Z :=
  match op with
  | OpInitialize reply | OpRefetch reply => reply_status reply
  | OpLogin _ reply | OpRegister _ reply => reply_status reply
  | OpLogout reply | OpForgotPassword _ reply | OpResetPassword _ _ reply
  | OpRequest _ reply => reply_status reply
  | OpOAuthCallback _ => None
  end.

Definition is_logout (op : Op) : bool :=
  match op with OpLogout _ => true | _ => false end.

Definition is_failed_initialize (op : Op) : bool :=
  match op with OpInitialize (Failure _) => true | _ => false end.

Definition is_failed_refetch (op : Op) : bool :=
  match op with OpRefetch (Failure _) => true | _ => false end.

Definition only_teardown_triggers (op : Op) (w : World) : Prop :=
  is_Some (getItem "accessToken" w) →
  getItem "accessToken" (run op w) = None →
  op_reply_status op = Some 401%Z ∨ is_logout op = true.

(** C8 as stated: no operation leaves a token without a user or a user
    without a token. *)
Definition never_mixed (op : Op) (w : World) : Prop :=
  session_consistent w → session_consistent (run op w).


(** C10 as stated: with both parameters given, the error branch runs and
    storage is left alone. *)
Definition error_takes_precedence (searchParams : list (string * string)) (w : World)
  : Prop :=
  is_Some (searchParams_get searchParams "token") →
  ∀ e, searchParams_get searchParams "error" = Some e →
  let w' := handleCallback searchParams w in
  localStorage w' = localStorage w ∧
  toasts w' = toast_error_msg ("Authentication failed: " +:+ e) :: toasts w ∧
  history w' = "/auth/login" :: history w.

(** The operations after which token and user are paired again. *)
Definition settles_session (op : Op) : Prop :=
  match op with
  | OpInitialize _ | OpLogout _ => True
  | OpLogin _ (Success body) | OpRegister _ (Success body) => access_token body ≠ ""
  | _ => False
  end.

(** The calls of the session store that fail without a 401, and the calls
    that carry no session data at all. *)
Definition leaves_session_alone (op : Op) : Prop :=
  match op with
  | OpLogin _ (Failure resp) | OpRegister _ (Failure resp) =>
      status <$> resp ≠ Some 401%Z
  | OpForgotPassword _ reply | OpResetPassword _ _ reply =>
      reply_status reply ≠ Some 401%Z
  | OpRequest cfg reply => reply_status reply ≠ Some 401%Z ∨ _retry cfg = true
  | _ => False
  end.

(** A call other than session resolution and logout whose request comes
    back with a first 401. *)
Definition hits_401_teardown (op : Op) : Prop :=
  match op with
  | OpLogin _ reply | OpRegister _ reply => reply_status reply = Some 401%Z
  | OpForgotPassword _ reply | OpResetPassword _ _ reply =>
      reply_status reply = Some 401%Z
  | OpRequest cfg reply => reply_status reply = Some 401%Z ∧ _retry cfg = false
  | _ => False
  end.

(** ** Callers of the session store *)

(** [console.error] writes to the same console. *)
Definition console_error (line : string) : Action := console_log line.

(** LoginPage.js, [onSubmit]: [await login(data)] throws when the mutation
    rejects. *)
Definition LoginPage_onSubmit (data : string) (reply : Reply AuthData) (w : World)
  : World :=
  match loginMutation data reply w with
  | (w1, Resolved _) => navigate "/dashboard" w1
  | (w1, Rejected _) => console_error "Login error:" w1
  end.

(** RegisterPage.js, [onSubmit]. *)
Definition RegisterPage_onSubmit (data : string) (reply : Reply AuthData) (w : World)
  : World :=
  match registerMutation data reply w with
  | (w1, Resolved _) => navigate "/dashboard" w1
  | (w1, Rejected _) => console_error "Registration error:" w1
  end.

(** Local state of the login page (the register page has the same). *)
Record LoginPageState := mkLoginPageState {
  showPassword : bool;
  isGoogleLoading : bool;
  isMicrosoftLoading : bool
}.

Definition setIsGoogleLoading (b : bool) (st : LoginPageState) : LoginPageState :=
  {| showPassword := showPassword st; isGoogleLoading := b;
     isMicrosoftLoading := isMicrosoftLoading st |}.

Definition setIsMicrosoftLoading (b : bool) (st : LoginPageState) : LoginPageState :=
  {| showPassword := showPassword st; isGoogleLoading := isGoogleLoading st;
     isMicrosoftLoading := b |}.

(** What [fetch(..)] followed by [response.json()] and the read of
    [data.auth_url] comes to: a body with or without an [auth_url], or an
    exception (network failure, a body that is not JSON, a [null] body).
    [fetch] does not reject on an HTTP error status. *)
Inductive FetchOutcome :=
| FetchJson (auth_url : option string)
| FetchThrows.

(** [fetch] is the browser's own: the request goes out as given, past the
    axios interceptors.  Targets are written without the backend's base
    URL, as for the axios calls. *)
Definition fetch (target : string) : Action :=
  put_on_wire (new_config "get" target None).

(** LoginPage.js and RegisterPage.js, [handleGoogleLogin]. *)
Definition handleGoogleLogin (outcome : FetchOutcome) (st : LoginPageState) (w : World)
  : LoginPageState * World :=
  let st1 := setIsGoogleLoading true st in
  let w1 := fetch "/api/auth/google/login" w in
  match outcome with
  | FetchJson auth_url =>
      if truthy auth_url
      then (st1, window_location_href (default "" auth_url) w1)
      else (st1, w1)
  | FetchThrows =>
      (setIsGoogleLoading false st1,
       toast_error "Failed to initialize Google login" w1)
  end.

(** LoginPage.js and RegisterPage.js, [handleMicrosoftLogin]. *)
Definition handleMicrosoftLogin (outcome : FetchOutcome) (st : LoginPageState) (w : World)
  : LoginPageState * World :=
  let st1 := setIsMicrosoftLoading true st in
  let w1 := fetch "/api/auth/microsoft/login" w in
  match outcome with
  | FetchJson auth_url =>
      if truthy auth_url
      then (st1, window_location_href (default "" auth_url) w1)
      else (st1, w1)
  | FetchThrows =>
      (setIsMicrosoftLoading false st1,
       toast_error "Failed to initialize Microsoft login" w1)
  end.

(** DashboardLayout.js, [Sidebar]: the menu, the active entry, sign out. *)
Definition navigation : list (string * string) :=
  [("Dashboard", "/dashboard"); ("Emails", "/emails"); ("Calendar", "/calendar");
   ("Analytics", "/analytics"); ("Integrations", "/integrations");
   ("Credits", "/credits"); ("Settings", "/settings")].

Definition isActive (pathname : string) (item : string * string) : bool :=
  String.eqb pathname (snd item).

Definition handleLogout (reply : Reply unit) : Action := logout reply.

(** ** Locations and rendered trees *)

(** The segments of an absolute path as the router matches them: the path
    is cut at every slash, the empty piece before the leading slash and the
    empty pieces after trailing slashes are dropped, and an empty piece
    between two slashes stays a segment (which no route matches). *)
Fixpoint split_slash (path current : string) : list string :=
  match path with
  | EmptyString => [current]
  | String c rest =>
      if Ascii.eqb c "/"%char
      then current :: split_slash rest ""
      else split_slash rest (current +:+ String c EmptyString)
  end.

Fixpoint drop_empty (pieces : list string) : list string :=
  match pieces with
  | "" :: rest => drop_empty rest
  | _ => pieces
  end.

Definition segments (path : string) : list string :=
  let pieces := split_slash path "" in
  let pieces := match pieces with "" :: rest => rest | _ => pieces end in
  rev (drop_empty (rev pieces)).

(** The target of the redirect an element contains, if it contains one. *)
Fixpoint find_navigate (e : Element) : option string :=
  match e with
  | Navigate to _ => Some to
  | AuthLayout c | DashboardLayout c | AppDiv c => find_navigate c
  | _ => None
  end.

(** Does an element show anything of the protected zone, of the public
    zone? *)
Fixpoint protected_content (e : Element) : bool :=
  match e with
  | DashboardLayout _ | DashboardPage | EmailsPage | CalendarPage | AnalyticsPage
  | SettingsPage | IntegrationsPage | CreditsPage => true
  | AuthLayout c | AppDiv c => protected_content c
  | _ => false
  end.

Fixpoint public_content (e : Element) : bool :=
  match e with
  | AuthLayout _ | LoginPage | RegisterPage | OAuthCallback => true
  | DashboardLayout c | AppDiv c => public_content c
  | _ => false
  end.

(** ** Runs *)

(** Several operations in a row on one page. *)
Definition run_all (ops : list Op) (w : World) : World :=
  foldl (λ w' op, run op w') w ops.

(** Several failed responses handled in a row, as when a burst of calls
    comes back together. *)
Definition handle_all (errors : list AxiosError) (w : World) : World :=
  foldl (λ w' error, fst (response_onRejected (A:=unit) error w')) w errors.

(** Does the response handler tear down for this error? *)
Definition tears_down (error : AxiosError) : bool :=
  status_is_401 error && negb (_retry (config error)).

(** ** Basic facts *)

Lemma truthy_Some (s : string) : s ≠ "" → truthy (Some s) = true.
Proof.
  intros Hne. unfold truthy.
  destruct (String.eqb_spec s ""); [contradiction | reflexivity].
Qed.

Lemma truthy_true (v : option string) :
  truthy v = true ↔ ∃ s, v = Some s ∧ s ≠ "".
Proof.
  split.
  - destruct v as [s|]; simpl; [|discriminate].
    destruct (String.eqb_spec s ""); [discriminate|]. eauto.
  - intros (s & -> & Hne). by apply truthy_Some.
Qed.

Lemma status_is_401_spec (error : AxiosError) :
  status_is_401 error = true ↔ status <$> response error = Some 401%Z.
Proof.
  unfold status_is_401. destruct (response error) as [r|]; simpl.
  - rewrite bool_decide_eq_true. split; [by intros -> | by intros [= ->]].
  - split; discriminate.
Qed.

Lemma response_onRejected_first {A} (error : AxiosError) (w : World) :
  status <$> response error = Some 401%Z →
  _retry (config error) = false →
  response_onRejected (A:=A) error w =
    ((removeItem "accessToken" >>> removeItem "refreshToken" >>>
      window_location_href "/auth/login") w,
     Rejected {| config := set_retry true (config error); response := response error |}).
Proof.
  intros H401%status_is_401_spec Hretry.
  unfold response_onRejected. by rewrite H401, Hretry.
Qed.


Lemma request_onFulfilled_retry (w : World) (cfg : RequestConfig) :
  _retry (request_onFulfilled w cfg) = _retry cfg.
Proof. unfold request_onFulfilled. by destruct (truthy _). Qed.

(** ** Authorized request pipeline *)




(** ** Route guard *)

Lemma isLoading_useAuth (w : World) :
  isLoading (useAuth w) = query_isLoading w || negb (isInitialized w).
Proof. reflexivity. Qed.

(** C2.  While the store is not initialized, both guards and [App] itself
    render the loading screen, whatever the route, the user and the target
    screen: no target screen and no redirect. *)
Theorem guard_loading_until_initialized
    (w : World) (children : Element) (location : list string) :
  isInitialized w = false →
  ProtectedRoute (useAuth w) children = LoadingScreen ∧
  PublicRoute (useAuth w) children = LoadingScreen ∧
  App w location = LoadingScreen.
Proof.
  intros Hinit.
  assert (isLoading (useAuth w) = true) as Hload.
  { rewrite isLoading_useAuth, Hinit. apply orb_true_r. }
  unfold ProtectedRoute, PublicRoute, App. cbv zeta. by rewrite Hload.
Qed.

Lemma guard_loading_until_initialized_witness :
  isInitialized blank = false ∧
  ProtectedRoute (useAuth blank) DashboardPage = LoadingScreen ∧
  PublicRoute (useAuth blank) LoginPage = LoadingScreen ∧
  App blank ["dashboard"] = LoadingScreen.
Proof.
  split; [reflexivity|].
  destruct (guard_loading_until_initialized blank DashboardPage ["dashboard"] eq_refl)
    as (H1 & _ & H3).
  split; [exact H1|]. split; [|exact H3].
  apply (guard_loading_until_initialized blank LoginPage []). reflexivity.
Defined.

Lemma auth_routes_replace (rest : list string) : redirects_replace (auth_routes rest) = true.
Proof.
  unfold auth_routes. destruct rest as [|segment [|? ?]]; try reflexivity.
  cbn [route_lookup].
  repeat (destruct (eqb_nocase _ segment); [reflexivity|]). reflexivity.
Qed.

Lemma app_routes_replace (location : list string) :
  redirects_replace (app_routes location) = true.
Proof.
  unfold app_routes. destruct location as [|segment [|? ?]]; try reflexivity.
  cbn [route_lookup].
  repeat (destruct (eqb_nocase _ segment); [reflexivity|]). reflexivity.
Qed.

(** Whatever the state and the location, every redirect in what [App]
    renders replaces the history entry. *)
Lemma App_redirects_replace (w : World) (location : list string) :
  redirects_replace (App w location) = true.
Proof.
  unfold App, PublicRoute, ProtectedRoute. cbv zeta.
  destruct (isLoading (useAuth w)); [reflexivity|].
  destruct (is_public location); cbn [redirects_replace];
    destruct (bool_decide _); cbn [negb redirects_replace];
    auto using auth_routes_replace, app_routes_replace.
Qed.

(** C3 (amended).  Once the store is initialized: while the current-user
    query is not loading, a protected route without a user redirects to the
    login screen, a public route with a user redirects to the home, the
    other two combinations render the requested screen, and every redirect
    replaces history; while the current-user query is loading, both guards
    and [App] render the loading indicator instead, whatever the route and
    the user. *)
Theorem guard_decision_once_initialized
    (w : World) (children : Element) (location : list string) :
  isInitialized w = true →
  (query_isLoading w = false →
   (user w = None → ProtectedRoute (useAuth w) children = Navigate "/auth/login" true) ∧
   (is_Some (user w) → PublicRoute (useAuth w) children = Navigate "/dashboard" true) ∧
   (is_Some (user w) → ProtectedRoute (useAuth w) children = children) ∧
   (user w = None → PublicRoute (useAuth w) children = children) ∧
   App w location =
     AppDiv (match is_public location, user w with
             | false, None => Navigate "/auth/login" true
             | true, Some _ => Navigate "/dashboard" true
             | false, Some _ => DashboardLayout (app_routes location)
             | true, None => AuthLayout (auth_routes (tail location))
             end) ∧
   redirects_replace (App w location) = true) ∧
  (query_isLoading w = true →
   ProtectedRoute (useAuth w) children = LoadingScreen ∧
   PublicRoute (useAuth w) children = LoadingScreen ∧
   App w location = LoadingScreen).
Proof.
  intros Hinit. split; intros Hq.
  - assert (isLoading (useAuth w) = false) as Hload.
    { by rewrite isLoading_useAuth, Hinit, Hq. }
    unfold App, ProtectedRoute, PublicRoute. cbv zeta. rewrite Hload.
    cbn [useAuth ctx_user].
    repeat split.
    + by intros ->.
    + intros [u ->]. rewrite bool_decide_eq_true_2; [done | by eexists].
    + intros [u ->]. rewrite bool_decide_eq_true_2; [done | by eexists].
    + by intros ->.
    + destruct (is_public location), (user w); reflexivity.
    + pose proof (App_redirects_replace w location) as H.
      unfold App, ProtectedRoute, PublicRoute in H. cbv zeta in H.
      by rewrite Hload in H.
  - assert (isLoading (useAuth w) = true) as Hload.
    { by rewrite isLoading_useAuth, Hq. }
    unfold App, ProtectedRoute, PublicRoute. cbv zeta. by rewrite Hload.
Qed.

Lemma guard_decision_once_initialized_witness :
  isInitialized anonymous = true ∧ query_isLoading anonymous = false ∧
  ProtectedRoute (useAuth anonymous) DashboardPage = Navigate "/auth/login" true ∧
  PublicRoute (useAuth anonymous) LoginPage = LoginPage ∧
  App anonymous ["AUTH"; "login"] = AppDiv (AuthLayout LoginPage) ∧
  query_isLoading (set_query_isLoading true anonymous) = true ∧
  App (set_query_isLoading true anonymous) ["dashboard"] = LoadingScreen.
Proof.
  split; [reflexivity|]. split; [reflexivity|].
  destruct (guard_decision_once_initialized anonymous DashboardPage ["AUTH"; "login"]
              eq_refl) as (Hidle & _).
  destruct (Hidle eq_refl) as (H1 & _ & _ & _ & H5 & _).
  destruct (guard_decision_once_initialized anonymous LoginPage [] eq_refl) as (Hidle' & _).
  destruct (Hidle' eq_refl) as (_ & _ & _ & H4 & _).
  destruct (guard_decision_once_initialized (set_query_isLoading true anonymous)
              DashboardPage ["dashboard"] eq_refl) as (_ & Hbusy).
  destruct (Hbusy eq_refl) as (_ & _ & H7).
  split; [exact (H1 eq_refl)|]. split; [exact (H4 eq_refl)|]. split; [exact H5|].
  split; [reflexivity | exact H7].
Defined.

(** C3 as stated fails in an initialized store whose current-user query is
    loading: the guard shows the loading screen instead of redirecting. *)
Lemma guard_loading_when_initialized :
  ¬ guard_decision_when_initialized (set_query_isLoading true anonymous) DashboardPage.
Proof.
  unfold guard_decision_when_initialized. intros H.
  destruct (H eq_refl) as (Hredirect & _).
  specialize (Hredirect eq_refl). vm_compute in Hredirect. discriminate.
Qed.

(** Such a store arises in the running app: the OAuth callback stores a
    token in an initialized, anonymous store, and the next render of
    [AuthProvider] finds the query enabled and starts its first fetch. *)
Lemma initialized_and_loading_reachable :
  let w := AuthProvider_render (handleCallback [("token", "abc")] anonymous) in
  isInitialized w = true ∧ query_isLoading w = true ∧
  App w ["dashboard"] = LoadingScreen.
Proof. vm_compute. done. Qed.

(** ** Reasoning about actions *)

Ltac unfold_actions :=
  unfold token_present, user_present, currentUser_enabled in *;
  unfold seq, skip, getItem in *;
  cbn [setItem removeItem toast_success toast_error
       queryClient_setQueryData queryClient_clear with_localStorage
       window_location_href navigate setUser setIsInitialized
       set_query_isLoading with_queryCache push_toast console_log
       put_on_wire getItem
       localStorage location_assigns history user isInitialized query_isLoading
       queryCache toasts console sent fst snd] in *.

(** One call through axios, by the reply it gets. *)
Lemma axios_request_eq {A} (cfg : RequestConfig) (reply : Reply A) (w : World) :
  axios_request cfg reply w =
    let cfg' := request_onFulfilled w cfg in
    match reply with
    | Success body => (put_on_wire cfg' w, Resolved body)
    | Failure resp =>
        if status_is_401 {| config := cfg'; response := resp |} && negb (_retry cfg)
        then ((removeItem "accessToken" >>> removeItem "refreshToken" >>>
               window_location_href "/auth/login") (put_on_wire cfg' w),
              Rejected {| config := set_retry true cfg'; response := resp |})
        else (put_on_wire cfg' w, Rejected {| config := cfg'; response := resp |})
    end.
Proof.
  unfold axios_request, response_onRejected. cbv zeta. cbn [config response].
  destruct reply; [reflexivity|]. by rewrite request_onFulfilled_retry.
Qed.

Lemma status_is_401_reply (cfg : RequestConfig) (resp : option ErrorResponse) :
  status_is_401 {| config := cfg; response := resp |} =
  bool_decide (status <$> resp = Some 401%Z).
Proof.
  unfold status_is_401. cbn [response]. destruct resp as [r|]; simpl.
  - apply bool_decide_ext. split; [by intros -> | by intros [= ->]].
  - reflexivity.
Qed.

(** The store right after the first mount of [AuthProvider]. *)
Lemma AuthProvider_mount_eq (w : World) :
  AuthProvider_mount w =
    {| localStorage := localStorage w; location_assigns := location_assigns w;
       history := history w; user := None;
       isInitialized := negb (token_present w);
       query_isLoading := token_present w; queryCache := ∅;
       toasts := toasts w; console := console w; sent := sent w |}.
Proof.
  unfold AuthProvider_mount, seq.
  change (queryClient_clear (set_query_isLoading false (setIsInitialized false (setUser None w))))
    with {| localStorage := localStorage w; location_assigns := location_assigns w;
            history := history w; user := None; isInitialized := false;
            query_isLoading := false; queryCache := ∅;
            toasts := toasts w; console := console w; sent := sent w |}.
  unfold AuthProvider_render, init_effect, currentUser_enabled, token_present, getItem.
  cbn [localStorage query_isLoading queryCache negb].
  rewrite lookup_empty, bool_decide_eq_true_2, !andb_true_r by done.
  destruct (truthy (localStorage w !! "accessToken")) eqn:Htok.
  - cbn [set_query_isLoading localStorage]. by rewrite Htok.
  - cbn [localStorage]. by rewrite Htok.
Qed.

(** ** Session store *)

(** Token and user after session resolution, by stored token and reply. *)
Lemma initialize_session (reply : Reply User) (w : World) :
  let w' := initialize reply w in
  user w' =
    (if token_present w
     then match reply with Success body => Some body | Failure _ => None end
     else None) ∧
  localStorage w' =
    (if token_present w
     then match reply with
          | Success _ => localStorage w
          | Failure resp =>
              delete "accessToken"
                (if bool_decide (status <$> resp = Some 401%Z)
                 then delete "refreshToken" (delete "accessToken" (localStorage w))
                 else localStorage w)
          end
     else localStorage w).
Proof.
  cbv zeta. unfold initialize. rewrite AuthProvider_mount_eq. cbn [query_isLoading].
  destruct (token_present w) eqn:Htok; [|done].
  unfold currentUser_settle, authAPI.getCurrentUser, axios_get.
  rewrite axios_request_eq. cbv zeta.
  destruct reply as [body|resp].
  - unfold currentUser_onSuccess. by unfold_actions.
  - rewrite status_is_401_reply.
    change (negb (_retry (new_config "get" "/api/auth/me" None))) with true.
    rewrite andb_true_r.
    destruct (bool_decide (status <$> resp = Some 401%Z));
      unfold currentUser_onError; by unfold_actions.
Qed.

(** C4.  Session resolution always ends initialized (and with the query no
    longer loading).  Without a stored token no request goes out and there
    is no user.  With one, the current user is fetched under that token; on
    success the user is set and storage is kept, on any failure the token
    is removed and there is no user. *)
Theorem initialize_resolves (reply : Reply User) (w : World) :
  let w' := initialize reply w in
  isInitialized w' = true ∧
  query_isLoading w' = false ∧
  (token_present w = false →
     user w' = None ∧ sent w' = sent w ∧ localStorage w' = localStorage w) ∧
  (∀ t, getItem "accessToken" w = Some t → t ≠ "" →
     sent w' = set_headers (<["Authorization" := "Bearer " +:+ t]> ∅)
                 (new_config "get" "/api/auth/me" None) :: sent w) ∧
  (∀ body, token_present w = true → reply = Success body →
     user w' = Some body ∧ localStorage w' = localStorage w) ∧
  (∀ resp, token_present w = true → reply = Failure resp →
     user w' = None ∧ getItem "accessToken" w' = None).
Proof.
  intros w'. subst w'. unfold initialize. cbv zeta.
  rewrite AuthProvider_mount_eq. cbn [query_isLoading].
  assert (∀ w0 t, localStorage w0 = localStorage w →
            getItem "accessToken" w = Some t → t ≠ "" →
            request_onFulfilled w0 (new_config "get" "/api/auth/me" None)
            = set_headers (<["Authorization" := "Bearer " +:+ t]> ∅)
                (new_config "get" "/api/auth/me" None)) as Hcfg.
  { intros w0 t Hw0 Ht Hne. unfold request_onFulfilled, getItem in *.
    rewrite Hw0, Ht, (truthy_Some t Hne). reflexivity. }
  destruct (token_present w) eqn:Htok.
  - unfold currentUser_settle, authAPI.getCurrentUser, axios_get.
    rewrite axios_request_eq. cbv zeta.
    destruct reply as [body|resp].
    + unfold currentUser_onSuccess. unfold_actions.
      split_and!; try done.
      * intros t Ht Hne. f_equal. by apply Hcfg.
      * by intros body' _ [= ->].
    + rewrite status_is_401_reply.
      change (negb (_retry (new_config "get" "/api/auth/me" None))) with true.
      rewrite andb_true_r.
      destruct (bool_decide (status <$> resp = Some 401%Z));
        unfold currentUser_onError; unfold_actions;
        (split_and!; try done;
         [ intros t Ht Hne; f_equal; by apply Hcfg
         | intros resp' _ _; split; [done | apply lookup_delete_eq] ]).
  - cbn [isInitialized query_isLoading user sent localStorage negb].
    split_and!; try done.
    intros t Ht Hne. unfold token_present in Htok.
    rewrite Ht, (truthy_Some t Hne) in Htok. discriminate.
Qed.

Lemma initialize_resolves_witness :
  let w := initialize (Failure (Some {| status := 401; detail := None |}))
             (setItem "accessToken" "t1" blank) in
  isInitialized w = true ∧ user w = None ∧ getItem "accessToken" w = None.
Proof.
  destruct (initialize_resolves (Failure (Some {| status := 401; detail := None |}))
              (setItem "accessToken" "t1" blank)) as (Hinit & _ & _ & _ & _ & Hfail).
  destruct (Hfail _ eq_refl eq_refl) as (Huser & Htok).
  cbv zeta. split; [exact Hinit|]. split; [exact Huser | exact Htok].
Defined.

(** [authAPI.logout] resolves whatever the server does. *)
Lemma authAPI_logout_resolves (reply : Reply unit) (w : World) :
  snd (authAPI.logout reply w) = Resolved tt.
Proof.
  unfold authAPI.logout.
  by destruct (axios_post "/api/auth/logout" None reply w) as [w1 [[]|e]].
Qed.

(** Token and user after logout, whatever the reply. *)
Lemma logout_session (reply : Reply unit) (w : World) :
  getItem "accessToken" (logout reply w) = None ∧ user (logout reply w) = None.
Proof.
  unfold logout, logoutMutation, useMutation.
  destruct (authAPI.logout reply w) as [w1 [a|e]]; cbn [fst];
    unfold logout_onSettled; unfold_actions;
    (split; [|done]); rewrite lookup_delete_ne by done; apply lookup_delete_eq.
Qed.

(** C5.  Whatever the server answers to the logout call, logout removes the
    token (and refresh token) from storage, clears the user, clears the
    query cache, shows the completion notification, and its mutation
    resolves. *)
Theorem logout_tears_down (reply : Reply unit) (w : World) :
  let w' := logout reply w in
  getItem "accessToken" w' = None ∧
  getItem "refreshToken" w' = None ∧
  user w' = None ∧
  queryCache w' = ∅ ∧
  (∃ earlier, toasts w' = toast_success_msg "Logged out successfully" :: earlier) ∧
  logoutMutation reply w = (w', Resolved tt).
Proof.
  intros w'. subst w'. unfold logout, logoutMutation, useMutation.
  pose proof (authAPI_logout_resolves reply w) as Hres.
  destruct (authAPI.logout reply w) as [w1 p]. cbn [snd] in Hres. subst p.
  cbn [fst]. unfold logout_onSettled. unfold_actions.
  split_and!; try done.
  - rewrite lookup_delete_ne by done. apply lookup_delete_eq.
  - apply lookup_delete_eq.
  - by eexists.
Qed.

(** The spec's sequence: login, then logout, ends anonymous with nothing
    stored, whatever the credentials and the server's answers. *)
Lemma login_then_logout (credentials : string) (r1 : Reply AuthData) (r2 : Reply unit)
    (w : World) :
  let w' := logout r2 (login credentials r1 w) in
  getItem "accessToken" w' = None ∧ user w' = None.
Proof.
  apply logout_session.
Qed.

(** C6.  The request interceptor, with a token in storage, sets the
    [Authorization] header to the bearer credential and changes nothing
    else of the request; without one it returns the request as it came, so
    a request that had no [Authorization] header still has none, and the
    calls of this module, which start from empty headers, go out without
    it. *)
Theorem request_interceptor_attaches_bearer (w : World) (cfg : RequestConfig) :
  let cfg' := request_onFulfilled w cfg in
  (∀ t, getItem "accessToken" w = Some t → t ≠ "" →
     headers cfg' = <["Authorization" := "Bearer " +:+ t]> (headers cfg) ∧
     headers cfg' !! "Authorization" = Some ("Bearer " +:+ t) ∧
     (∀ name, name ≠ "Authorization" → headers cfg' !! name = headers cfg !! name) ∧
     url cfg' = url cfg ∧ method cfg' = method cfg ∧ data cfg' = data cfg ∧
     _retry cfg' = _retry cfg) ∧
  (token_present w = false →
     cfg' = cfg ∧
     (headers cfg !! "Authorization" = None → headers cfg' !! "Authorization" = None) ∧
     ∀ m target body,
       headers (request_onFulfilled w (new_config m target body)) !! "Authorization" = None).
Proof.
  intros cfg'. subst cfg'. unfold request_onFulfilled. cbv zeta. split.
  - intros t Ht Hne. rewrite Ht, (truthy_Some t Hne). cbn [default set_headers
      headers url method data _retry].
    split_and!; try done.
    + apply lookup_insert_eq.
    + intros name Hname. by apply lookup_insert_ne.
  - unfold token_present. intros ->. split_and!; try done.
Qed.

Lemma request_interceptor_attaches_bearer_witness :
  headers (request_onFulfilled signed_in (new_config "get" "/api/emails" None))
    !! "Authorization" = Some "Bearer t1" ∧
  request_onFulfilled anonymous (new_config "get" "/api/emails" None)
    = new_config "get" "/api/emails" None.
Proof.
  split.
  - destruct (request_interceptor_attaches_bearer signed_in
                (new_config "get" "/api/emails" None)) as (H & _).
    destruct (H "t1" eq_refl) as (_ & Hauth & _); [discriminate|].
    exact Hauth.
  - destruct (request_interceptor_attaches_bearer anonymous
                (new_config "get" "/api/emails" None)) as (_ & H).
    destruct (H eq_refl) as (Heq & _). exact Heq.
Defined.

(** The interceptor reads storage and nothing else: it has no effect on the
    world, and every request of [axios_request] is sent as it leaves it. *)
Lemma axios_request_sends_intercepted {A} (cfg : RequestConfig) (reply : Reply A)
    (w : World) :
  sent (fst (axios_request cfg reply w)) = request_onFulfilled w cfg :: sent w.
Proof.
  rewrite axios_request_eq. cbv zeta. destruct reply as [body|resp]; [done|].
  by destruct (_ && _).
Qed.

(** ** What each operation does to the stored token and the user *)

(** The world after one call through axios: the request is on the wire,
    and a first 401 has torn the stored credentials down. *)
Lemma axios_request_world {A} (cfg : RequestConfig) (reply : Reply A) (w : World) :
  fst (axios_request cfg reply w) =
    (if bool_decide (reply_status reply = Some 401%Z) && negb (_retry cfg)
     then removeItem "accessToken" >>> removeItem "refreshToken" >>>
          window_location_href "/auth/login"
     else skip) (put_on_wire (request_onFulfilled w cfg) w).
Proof.
  rewrite axios_request_eq. cbv zeta. destruct reply as [body|resp]; [done|].
  rewrite status_is_401_reply. cbn [reply_status]. by destruct (_ && _).
Qed.

Lemma axios_request_session {A} (cfg : RequestConfig) (reply : Reply A) (w : World) :
  let w' := fst (axios_request cfg reply w) in
  user w' = user w ∧
  localStorage w' =
    if bool_decide (reply_status reply = Some 401%Z) && negb (_retry cfg)
    then delete "refreshToken" (delete "accessToken" (localStorage w))
    else localStorage w.
Proof.
  cbv zeta. rewrite axios_request_world. by destruct (_ && _).
Qed.

Lemma axios_request_cases {A} (cfg : RequestConfig) (reply : Reply A) (w : World) :
  ∃ w1 p,
    axios_request cfg reply w = (w1, p) ∧
    user w1 = user w ∧
    localStorage w1 =
      (if bool_decide (reply_status reply = Some 401%Z) && negb (_retry cfg)
       then delete "refreshToken" (delete "accessToken" (localStorage w))
       else localStorage w) ∧
    match reply with
    | Success body => p = Resolved body
    | Failure resp => ∃ e, p = Rejected e ∧ response e = resp
    end.
Proof.
  destruct (axios_request_session cfg reply w) as (Hu & Hs).
  exists (fst (axios_request cfg reply w)), (snd (axios_request cfg reply w)).
  split; [apply surjective_pairing|]. split; [exact Hu|]. split; [exact Hs|].
  destruct reply as [body|resp]; rewrite axios_request_eq; cbv zeta; [done|].
  destruct (status_is_401 _ && _); cbn [snd]; eexists; split; reflexivity.
Qed.

(** A mutation whose callbacks only notify: the session is what the call
    through axios left. *)
Lemma useMutation_session {A} (cfg : RequestConfig) (reply : Reply A)
    (onSuccess : A → Action) (onError : AxiosError → Action) (w : World) :
  (∀ a w1, user (onSuccess a w1) = user w1 ∧ localStorage (onSuccess a w1) = localStorage w1) →
  (∀ e w1, user (onError e w1) = user w1 ∧ localStorage (onError e w1) = localStorage w1) →
  let w' := fst (useMutation (axios_request cfg reply) onSuccess onError skip w) in
  user w' = user (fst (axios_request cfg reply w)) ∧
  localStorage w' = localStorage (fst (axios_request cfg reply w)).
Proof.
  intros Hs He. cbv zeta. unfold useMutation.
  destruct (axios_request cfg reply w) as [w1 [a|e]]; cbn [fst]; unfold seq, skip.
  - apply Hs.
  - apply He.
Qed.

Lemma login_session (credentials : string) (reply : Reply AuthData) (w : World) :
  let w' := login credentials reply w in
  match reply with
  | Success body =>
      user w' = Some (data_user body) ∧
      localStorage w' = <["accessToken" := access_token body]> (localStorage w)
  | Failure resp =>
      user w' = user w ∧
      localStorage w' =
        if bool_decide (status <$> resp = Some 401%Z)
        then delete "refreshToken" (delete "accessToken" (localStorage w))
        else localStorage w
  end.
Proof.
  cbv zeta. unfold login, loginMutation, useMutation, authAPI.login, axios_post.
  destruct (axios_request_cases (new_config "post" "/api/auth/login" (Some credentials)) reply w)
    as (w1 & p & -> & Hu & Hs & Hp).
  change (negb (_retry (new_config "post" "/api/auth/login" (Some credentials)))) with true in Hs.
  rewrite andb_true_r in Hs.
  destruct reply as [body|resp].
  - subst p. cbn [fst]. unfold login_onSuccess. unfold_actions.
    cbn [reply_status] in Hs. rewrite bool_decide_eq_false_2 in Hs by done.
    by rewrite Hs.
  - destruct Hp as (e & -> & _). cbn [fst]. unfold login_onError. unfold_actions.
    cbn [reply_status] in Hs. by rewrite Hs.
Qed.

Lemma register_session (userData : string) (reply : Reply AuthData) (w : World) :
  let w' := register userData reply w in
  match reply with
  | Success body =>
      user w' = Some (data_user body) ∧
      localStorage w' = <["accessToken" := access_token body]> (localStorage w)
  | Failure resp =>
      user w' = user w ∧
      localStorage w' =
        if bool_decide (status <$> resp = Some 401%Z)
        then delete "refreshToken" (delete "accessToken" (localStorage w))
        else localStorage w
  end.
Proof.
  cbv zeta. unfold register, registerMutation, useMutation, authAPI.register, axios_post.
  destruct (axios_request_cases (new_config "post" "/api/auth/register" (Some userData)) reply w)
    as (w1 & p & -> & Hu & Hs & Hp).
  change (negb (_retry (new_config "post" "/api/auth/register" (Some userData)))) with true in Hs.
  rewrite andb_true_r in Hs.
  destruct reply as [body|resp].
  - subst p. cbn [fst]. unfold register_onSuccess. unfold_actions.
    cbn [reply_status] in Hs. rewrite bool_decide_eq_false_2 in Hs by done.
    by rewrite Hs.
  - destruct Hp as (e & -> & _). cbn [fst]. unfold register_onError. unfold_actions.
    cbn [reply_status] in Hs. by rewrite Hs.
Qed.

(** The password calls and any other call of the app: notifications aside,
    only the pipeline's teardown can touch the session. *)
Lemma notify_only_session (op : Op) (w : World) :
  match op with
  | OpForgotPassword _ reply | OpResetPassword _ _ reply =>
      user (run op w) = user w ∧
      localStorage (run op w) =
        if bool_decide (reply_status reply = Some 401%Z)
        then delete "refreshToken" (delete "accessToken" (localStorage w))
        else localStorage w
  | OpRequest cfg reply =>
      user (run op w) = user w ∧
      localStorage (run op w) =
        if bool_decide (reply_status reply = Some 401%Z) && negb (_retry cfg)
        then delete "refreshToken" (delete "accessToken" (localStorage w))
        else localStorage w
  | _ => True
  end.
Proof.
  destruct op as [| | | |email reply|token password reply| |cfg reply|]; try done.
  - cbn [run]. unfold forgotPassword, forgotPasswordMutation, authAPI.forgotPassword,
      axios_post.
    edestruct (useMutation_session (A:=unit)) as (-> & ->); [done..|].
    destruct (axios_request_session (new_config "post" "/api/auth/forgot-password"
                (Some email)) reply w) as (-> & ->).
    cbn [new_config _retry negb]. by rewrite andb_true_r.
  - cbn [run]. unfold resetPassword, resetPasswordMutation, authAPI.resetPassword,
      axios_post.
    edestruct (useMutation_session (A:=unit)) as (-> & ->); [done..|].
    destruct (axios_request_session (new_config "post" "/api/auth/reset-password"
                (Some (token +:+ password))) reply w) as (-> & ->).
    cbn [new_config _retry negb]. by rewrite andb_true_r.
  - cbn [run]. apply axios_request_session.
Qed.

Lemma handleCallback_session (searchParams : list (string * string)) (w : World) :
  let w' := handleCallback searchParams w in
  user w' = user w ∧
  localStorage w' =
    if truthy (searchParams_get searchParams "error") then localStorage w
    else if truthy (searchParams_get searchParams "token")
         then <["accessToken" := default "" (searchParams_get searchParams "token")]>
                (localStorage w)
         else localStorage w.
Proof.
  cbv zeta. unfold handleCallback.
  destruct (truthy (searchParams_get searchParams "error")); [done|].
  by destruct (truthy (searchParams_get searchParams "token")).
Qed.

(** Token and user after a refetch of the current user, by stored token
    and reply. *)
Lemma refetch_session (reply : Reply User) (w : World) :
  let w' := currentUser_refetch reply w in
  user w' =
    (if token_present w
     then match reply with Success body => Some body | Failure _ => None end
     else user w) ∧
  localStorage w' =
    (if token_present w
     then match reply with
          | Success _ => localStorage w
          | Failure resp =>
              delete "accessToken"
                (if bool_decide (status <$> resp = Some 401%Z)
                 then delete "refreshToken" (delete "accessToken" (localStorage w))
                 else localStorage w)
          end
     else localStorage w).
Proof.
  cbv zeta. unfold currentUser_refetch, currentUser_enabled, token_present.
  destruct (truthy (getItem "accessToken" w)) eqn:Htok; [|done].
  unfold currentUser_settle, authAPI.getCurrentUser, axios_get.
  rewrite axios_request_eq. cbv zeta.
  destruct reply as [body|resp].
  - unfold currentUser_onSuccess. by unfold_actions.
  - rewrite status_is_401_reply.
    change (negb (_retry (new_config "get" "/api/auth/me" None))) with true.
    rewrite andb_true_r.
    destruct (bool_decide (status <$> resp = Some 401%Z));
      unfold currentUser_onError; by unfold_actions.
Qed.

(** ** Token removal *)

Lemma hits_401_removes_token (op : Op) (w : World) :
  hits_401_teardown op → getItem "accessToken" (run op w) = None.
Proof.
  intros Hhit. unfold getItem.
  assert (delete "refreshToken" (delete "accessToken" (localStorage w)) !! "accessToken"
          = None) as Hdel.
  { rewrite lookup_delete_ne by done. apply lookup_delete_eq. }
  destruct op as [reply|c reply|c reply|reply|email reply|token password reply
                 |params|cfg reply|reply]; cbn [hits_401_teardown] in Hhit; try done.
  - pose proof (login_session c reply w) as H. cbv zeta in H. cbn [run].
    destruct reply as [body|resp]; [done|]. cbn [reply_status] in Hhit.
    destruct H as (_ & ->). by rewrite bool_decide_eq_true_2.
  - pose proof (register_session c reply w) as H. cbv zeta in H. cbn [run].
    destruct reply as [body|resp]; [done|]. cbn [reply_status] in Hhit.
    destruct H as (_ & ->). by rewrite bool_decide_eq_true_2.
  - pose proof (notify_only_session (OpForgotPassword email reply) w) as (_ & ->).
    by rewrite bool_decide_eq_true_2.
  - pose proof (notify_only_session (OpResetPassword token password reply) w) as (_ & ->).
    by rewrite bool_decide_eq_true_2.
  - destruct Hhit as (H401 & Hretry).
    pose proof (notify_only_session (OpRequest cfg reply) w) as (_ & ->).
    by rewrite bool_decide_eq_true_2, Hretry.
Qed.

(** C7 (amended).  A stored access token is removed by a first 401 on any
    call through the pipeline, by logout, and by any failure (401 or not)
    of the current-user fetch, be it the one of session resolution or a
    later refetch on the running page; when an operation makes a stored
    token disappear, it is one of these. *)
Theorem token_removal_triggers (op : Op) (w : World) :
  (is_Some (getItem "accessToken" w) →
   getItem "accessToken" (run op w) = None →
   op_reply_status op = Some 401%Z ∨ is_logout op = true ∨
   is_failed_initialize op = true ∨ is_failed_refetch op = true) ∧
  (hits_401_teardown op → getItem "accessToken" (run op w) = None) ∧
  (is_logout op = true → getItem "accessToken" (run op w) = None) ∧
  (is_failed_initialize op = true → token_present w = true →
   getItem "accessToken" (run op w) = None) ∧
  (is_failed_refetch op = true → token_present w = true →
   getItem "accessToken" (run op w) = None).
Proof.
  split_and!.
  - intros [t Ht] Hgone. unfold getItem in *.
    destruct op as [reply|c reply|c reply|reply|email reply|token password reply
                   |params|cfg reply|reply];
      cbn [op_reply_status is_logout is_failed_initialize is_failed_refetch];
      auto.
    + (* initialize *)
      destruct reply as [body|resp]; [|auto]. exfalso. cbn [run] in Hgone.
      pose proof (initialize_session (Success body) w) as (_ & Hs).
      rewrite Hs in Hgone. destruct (token_present w); congruence.
    + (* login *)
      pose proof (login_session c reply w) as H. cbv zeta in H. cbn [run] in Hgone.
      destruct reply as [body|resp]; destruct H as (_ & Hs); rewrite Hs in Hgone.
      * by rewrite lookup_insert_eq in Hgone.
      * cbn [reply_status]. case_bool_decide; [auto | congruence].
    + (* register *)
      pose proof (register_session c reply w) as H. cbv zeta in H. cbn [run] in Hgone.
      destruct reply as [body|resp]; destruct H as (_ & Hs); rewrite Hs in Hgone.
      * by rewrite lookup_insert_eq in Hgone.
      * cbn [reply_status]. case_bool_decide; [auto | congruence].
    + (* forgotPassword *)
      pose proof (notify_only_session (OpForgotPassword email reply) w) as (_ & Hs).
      rewrite Hs in Hgone. case_bool_decide; [auto | congruence].
    + (* resetPassword *)
      pose proof (notify_only_session (OpResetPassword token password reply) w) as (_ & Hs).
      rewrite Hs in Hgone. case_bool_decide; [auto | congruence].
    + (* OAuth callback *)
      exfalso. pose proof (handleCallback_session params w) as (_ & Hs).
      cbn [run] in Hgone. rewrite Hs in Hgone.
      destruct (truthy (searchParams_get params "error")); [congruence|].
      destruct (truthy (searchParams_get params "token")); [|congruence].
      by rewrite lookup_insert_eq in Hgone.
    + (* any other call *)
      pose proof (notify_only_session (OpRequest cfg reply) w) as (_ & Hs).
      rewrite Hs in Hgone. case_bool_decide; [auto | cbn [andb] in Hgone; congruence].
    + (* refetch *)
      destruct reply as [body|resp]; [|auto 6]. exfalso. cbn [run] in Hgone.
      pose proof (refetch_session (Success body) w) as (_ & Hs).
      rewrite Hs in Hgone. destruct (token_present w); congruence.
  - apply hits_401_removes_token.
  - destruct op; try done. intros _. cbn [run]. by apply logout_session.
  - destruct op as [[body|resp]| | | | | | | |]; try done. intros _ Htok. cbn [run].
    pose proof (initialize_session (Failure resp) w) as (_ & Hs).
    unfold getItem. rewrite Hs, Htok. apply lookup_delete_eq.
  - destruct op as [| | | | | | | |[body|resp]]; try done. intros _ Htok. cbn [run].
    pose proof (refetch_session (Failure resp) w) as (_ & Hs).
    unfold getItem. rewrite Hs, Htok. apply lookup_delete_eq.
Qed.

Lemma token_removal_triggers_witness :
  let op := OpRequest (new_config "get" "/api/emails" None)
              (Failure (Some {| status := 401; detail := None |})) in
  is_Some (getItem "accessToken" signed_in) ∧
  hits_401_teardown op ∧
  getItem "accessToken" (run op signed_in) = None.
Proof.
  cbv zeta. split; [by eexists|].
  assert (hits_401_teardown
            (OpRequest (new_config "get" "/api/emails" None)
               (Failure (Some {| status := 401; detail := None |})))) as Hhit.
  { split; reflexivity. }
  split; [exact Hhit|].
  destruct (token_removal_triggers
              (OpRequest (new_config "get" "/api/emails" None)
                 (Failure (Some {| status := 401; detail := None |}))) signed_in)
    as (_ & H & _).
  exact (H Hhit).
Defined.

(** C7 as stated fails at startup: a stored token whose current-user fetch
    comes back with a 500 is removed, with no 401 and no logout. *)
Lemma token_removed_on_500 :
  ¬ only_teardown_triggers
      (OpInitialize (Failure (Some {| status := 500; detail := None |})))
      (setItem "accessToken" "t1" blank).
Proof.
  unfold only_teardown_triggers. intros H.
  destruct H as [H | H].
  - by eexists.
  - vm_compute. reflexivity.
  - vm_compute in H. discriminate.
  - discriminate.
Qed.

(** ** Pairing of token and user *)

(** C8 (amended).  Login and register that succeed with a non-empty token,
    logout, and session resolution end with the token stored exactly when a
    user is set, and so does a refetch of the current user (which runs only
    with a token stored).  A login, register, password or other call that
    fails without a first 401 (or succeeds without session data) leaves
    storage and user as they were.  The pipeline's 401 teardown removes the
    token and leaves the user as it was, and the OAuth callback stores its
    token and leaves the user as it was. *)
Theorem session_pairing (op : Op) (w : World) :
  (settles_session op → session_consistent (run op w)) ∧
  (leaves_session_alone op →
   localStorage (run op w) = localStorage w ∧ user (run op w) = user w) ∧
  (hits_401_teardown op →
   getItem "accessToken" (run op w) = None ∧ user (run op w) = user w) ∧
  (∀ searchParams t,
     op = OpOAuthCallback searchParams →
     truthy (searchParams_get searchParams "error") = false →
     searchParams_get searchParams "token" = Some t → t ≠ "" →
     getItem "accessToken" (run op w) = Some t ∧ user (run op w) = user w) ∧
  (∀ reply,
     op = OpRefetch reply →
     (token_present w = true → session_consistent (run op w)) ∧
     (token_present w = false → run op w = w)).
Proof.
  split_and!.
  - unfold session_consistent, token_present, user_present, getItem.
    destruct op as [reply|c [body|resp]|c [body|resp]|reply| | | | |];
      cbn [settles_session]; try done.
    + (* initialize *)
      intros _. cbn [run].
      pose proof (initialize_session reply w) as (-> & ->).
      destruct (token_present w) eqn:Htok; [|apply Htok].
      destruct reply as [body|resp]; [apply Htok|].
      by rewrite lookup_delete_eq.
    + (* login *)
      intros Hne. cbn [run].
      pose proof (login_session c (Success body) w) as (-> & ->).
      rewrite lookup_insert_eq. by apply truthy_Some.
    + (* register *)
      intros Hne. cbn [run].
      pose proof (register_session c (Success body) w) as (-> & ->).
      rewrite lookup_insert_eq. by apply truthy_Some.
    + (* logout *)
      intros _. cbn [run].
      pose proof (logout_session reply w) as (Htok & ->).
      unfold getItem in Htok. by rewrite Htok.
  - destruct op as [reply|c [body|resp]|c [body|resp]|reply|email reply
                   |token password reply|params|cfg reply|reply];
      cbn [leaves_session_alone]; try done.
    + intros Hne. cbn [run].
      pose proof (login_session c (Failure resp) w) as (-> & ->).
      by rewrite bool_decide_eq_false_2.
    + intros Hne. cbn [run].
      pose proof (register_session c (Failure resp) w) as (-> & ->).
      by rewrite bool_decide_eq_false_2.
    + intros Hne.
      pose proof (notify_only_session (OpForgotPassword email reply) w) as (-> & ->).
      by rewrite bool_decide_eq_false_2.
    + intros Hne.
      pose proof (notify_only_session (OpResetPassword token password reply) w) as (-> & ->).
      by rewrite bool_decide_eq_false_2.
    + intros Hne.
      pose proof (notify_only_session (OpRequest cfg reply) w) as (-> & ->).
      destruct Hne as [Hne | ->].
      * by rewrite bool_decide_eq_false_2.
      * by rewrite andb_false_r.
  - intros Hhit. split.
    + by apply hits_401_removes_token.
    + destruct op as [reply|c reply|c reply|reply|email reply|token password reply
                     |params|cfg reply|reply]; cbn [hits_401_teardown] in Hhit; try done.
      * pose proof (login_session c reply w) as H. cbv zeta in H.
        destruct reply; [done|]. apply H.
      * pose proof (register_session c reply w) as H. cbv zeta in H.
        destruct reply; [done|]. apply H.
      * apply (notify_only_session (OpForgotPassword email reply) w).
      * apply (notify_only_session (OpResetPassword token password reply) w).
      * apply (notify_only_session (OpRequest cfg reply) w).
  - intros params t -> Herr Htok Hne. cbn [run].
    pose proof (handleCallback_session params w) as (-> & Hs).
    unfold getItem. rewrite Hs, Herr, Htok, (truthy_Some t Hne). cbn [default].
    by rewrite lookup_insert_eq.
  - intros reply ->. cbn [run]. split; intros Htok.
    + unfold session_consistent, user_present.
      pose proof (refetch_session reply w) as (Hu & Hs).
      rewrite Htok in Hu, Hs. unfold token_present, getItem in *. rewrite Hu, Hs.
      destruct reply as [body|resp]; [exact Htok|]. by rewrite lookup_delete_eq.
    + unfold currentUser_refetch, currentUser_enabled.
      unfold token_present in Htok. by rewrite Htok.
Qed.

Lemma session_pairing_witness :
  let op := OpLogin "a@b.com:x" (Success {| access_token := "t1"; data_user := alice |}) in
  settles_session op ∧ session_consistent (run op anonymous).
Proof.
  cbv zeta.
  assert (settles_session
            (OpLogin "a@b.com:x" (Success {| access_token := "t1"; data_user := alice |})))
    as Hs.
  { cbn [settles_session access_token]. discriminate. }
  split; [exact Hs|].
  destruct (session_pairing
              (OpLogin "a@b.com:x" (Success {| access_token := "t1"; data_user := alice |}))
              anonymous) as (H & _).
  exact (H Hs).
Defined.

(** C8 as stated fails at the 401 teardown: from a signed-in store, a call
    that comes back with a 401 leaves the user set with no token stored. *)
Lemma mixed_after_401 :
  ¬ never_mixed
      (OpRequest (new_config "get" "/api/emails" None)
         (Failure (Some {| status := 401; detail := None |})))
      signed_in.
Proof.
  unfold never_mixed, session_consistent. intros H.
  assert (token_present signed_in = user_present signed_in) as H0 by (vm_compute; reflexivity).
  specialize (H H0). vm_compute in H. discriminate.
Qed.

(** The OAuth callback is the other way round: a token stored, no user. *)
Lemma mixed_after_oauth_callback :
  ¬ never_mixed (OpOAuthCallback [("token", "abc")]) anonymous.
Proof.
  unfold never_mixed, session_consistent. intros H.
  assert (token_present anonymous = user_present anonymous) as H0 by (vm_compute; reflexivity).
  specialize (H H0). vm_compute in H. discriminate.
Qed.

(** ** Identity *)




(** ** OAuth callback *)

(** C10 (amended).  When the callback carries a non-empty [error]
    parameter, with or without a [token], the handler reports the
    authentication failure, navigates to the login screen and leaves
    storage and user as they were. *)
Theorem callback_error_precedence
    (searchParams : list (string * string)) (e : string) (w : World) :
  searchParams_get searchParams "error" = Some e →
  e ≠ "" →
  let w' := handleCallback searchParams w in
  localStorage w' = localStorage w ∧
  user w' = user w ∧
  toasts w' = toast_error_msg ("Authentication failed: " +:+ e) :: toasts w ∧
  history w' = "/auth/login" :: history w.
Proof.
  intros He Hne. cbv zeta. unfold handleCallback.
  rewrite He, (truthy_Some e Hne). cbn [default]. by unfold_actions.
Qed.

Lemma callback_error_precedence_witness :
  let searchParams := [("token", "abc"); ("error", "access_denied")] in
  searchParams_get searchParams "error" = Some "access_denied" ∧
  "access_denied" ≠ "" ∧
  getItem "accessToken" (handleCallback searchParams anonymous) = None ∧
  history (handleCallback searchParams anonymous) = ["/auth/login"].
Proof.
  cbv zeta. split; [reflexivity|]. split; [discriminate|].
  destruct (callback_error_precedence [("token", "abc"); ("error", "access_denied")]
              "access_denied" anonymous eq_refl) as (Hs & _ & _ & Hh); [discriminate|].
  split; [|exact Hh]. unfold getItem. rewrite Hs. reflexivity.
Defined.

(** C10 as stated fails when the [error] parameter is there but empty: the
    handler takes the token branch and stores the token. *)
Lemma empty_error_stores_token :
  ¬ error_takes_precedence [("token", "abc"); ("error", "")] anonymous.
Proof.
  unfold error_takes_precedence. intros H.
  destruct (H (ltac:(by eexists)) "" eq_refl) as (Hs & _).
  apply (f_equal (λ m : gmap string string, m !! "accessToken")) in Hs.
  vm_compute in Hs. discriminate.
Qed.

(** ** The scenarios of the specification *)

Lemma scenario_me_200 :
  let w := initialize (Success alice) (setItem "accessToken" "t1" blank) in
  user w = Some alice ∧ App w ["dashboard"] = AppDiv (DashboardLayout DashboardPage).
Proof. vm_compute. done. Qed.

Lemma scenario_me_401 :
  let w := initialize (Failure (Some {| status := 401; detail := None |}))
             (setItem "accessToken" "t1" blank) in
  user w = None ∧ getItem "accessToken" w = None ∧
  App w ["dashboard"] = AppDiv (Navigate "/auth/login" true).
Proof. vm_compute. done. Qed.

Lemma scenario_login :
  let w := login "a@b.com:x" (Success {| access_token := "t1"; data_user := alice |})
             anonymous in
  getItem "accessToken" w = Some "t1" ∧ user w = Some alice ∧
  headers (request_onFulfilled w (new_config "get" "/api/emails" None)) !! "Authorization"
    = Some "Bearer t1".
Proof. vm_compute. done. Qed.

Lemma scenario_emails_401 :
  let call := axios_request (A:=unit) (new_config "get" "/api/emails" None)
                (Failure (Some {| status := 401; detail := None |})) signed_in in
  getItem "accessToken" (fst call) = None ∧
  location_assigns (fst call) = ["/auth/login"] ∧
  user (fst call) = Some alice ∧
  ∃ e, snd call = Rejected e.
Proof. vm_compute. split_and!; try done. by eexists. Qed.

(** The page load that the teardown's navigation causes is what drops the
    user: the reloaded app finds no token, sends nothing and has no user. *)
Lemma reload_after_teardown (error : AxiosError) (reply : Reply User) (w : World) :
  status <$> response error = Some 401%Z →
  _retry (config error) = false →
  let w' := fst (response_onRejected (A:=unit) error w) in
  user (initialize reply w') = None ∧
  localStorage (initialize reply w') = localStorage w'.
Proof.
  intros H401 Hretry w'.
  assert (token_present w' = false) as Htok.
  { subst w'. rewrite (response_onRejected_first error w H401 Hretry). cbn [fst].
    unfold_actions. rewrite lookup_delete_ne by done. by rewrite lookup_delete_eq. }
  destruct (initialize_session reply w') as (Hu & Hs).
  rewrite Htok in Hu, Hs. by split.
Qed.

(** * Beyond the claims: the rest of the session code and its callers *)

(** ** The world after each operation *)

Lemma useMutation_world {A} (cfg : RequestConfig) (reply : Reply A)
    (onSuccess : A → Action) (onError : AxiosError → Action) (onSettled : Action)
    (w : World) :
  fst (useMutation (axios_request cfg reply) onSuccess onError onSettled w) =
    match reply with
    | Success body => onSettled (onSuccess body (put_on_wire (request_onFulfilled w cfg) w))
    | Failure resp =>
        if bool_decide (status <$> resp = Some 401%Z) && negb (_retry cfg)
        then onSettled
               (onError {| config := set_retry true (request_onFulfilled w cfg);
                           response := resp |}
                  (window_location_href "/auth/login"
                     (removeItem "refreshToken"
                        (removeItem "accessToken"
                           (put_on_wire (request_onFulfilled w cfg) w)))))
        else onSettled
               (onError {| config := request_onFulfilled w cfg; response := resp |}
                  (put_on_wire (request_onFulfilled w cfg) w))
    end.
Proof.
  unfold useMutation. rewrite axios_request_eq. cbv zeta.
  destruct reply as [body|resp]; [done|].
  rewrite status_is_401_reply. by destruct (_ && _).
Qed.

Lemma useMutation_outcome {A} (cfg : RequestConfig) (reply : Reply A)
    (onSuccess : A → Action) (onError : AxiosError → Action) (onSettled : Action)
    (w : World) :
  match reply with
  | Success body =>
      snd (useMutation (axios_request cfg reply) onSuccess onError onSettled w)
      = Resolved body
  | Failure resp =>
      ∃ e, snd (useMutation (axios_request cfg reply) onSuccess onError onSettled w)
           = Rejected e ∧ response e = resp
  end.
Proof.
  unfold useMutation.
  destruct reply as [body|resp]; rewrite axios_request_eq; cbv zeta; [done|].
  destruct (status_is_401 _ && _); cbn [snd]; eexists; split; reflexivity.
Qed.

Lemma error_message_response (e : AxiosError) (resp : option ErrorResponse)
    (fallback : string) :
  response e = resp → error_message e fallback = or_default (resp ≫= detail) fallback.
Proof. unfold error_message. by intros ->. Qed.

(** ** The login and register forms *)

Lemma LoginPage_onSubmit_world (data : string) (reply : Reply AuthData) (w : World) :
  LoginPage_onSubmit data reply w =
    match reply with
    | Success _ => navigate "/dashboard" (login data reply w)
    | Failure _ => console_error "Login error:" (login data reply w)
    end.
Proof.
  unfold LoginPage_onSubmit, login.
  pose proof (useMutation_outcome (new_config "post" "/api/auth/login" (Some data)) reply
                login_onSuccess login_onError skip w) as Ho.
  unfold loginMutation, authAPI.login, axios_post in *.
  destruct (useMutation _ _ _ _ w) as [w1 p]. cbn [fst snd] in *.
  destruct reply as [body|resp].
  - by subst p.
  - by destruct Ho as (e & -> & _).
Qed.

Lemma RegisterPage_onSubmit_world (data : string) (reply : Reply AuthData) (w : World) :
  RegisterPage_onSubmit data reply w =
    match reply with
    | Success _ => navigate "/dashboard" (register data reply w)
    | Failure _ => console_error "Registration error:" (register data reply w)
    end.
Proof.
  unfold RegisterPage_onSubmit, register.
  pose proof (useMutation_outcome (new_config "post" "/api/auth/register" (Some data)) reply
                register_onSuccess register_onError skip w) as Ho.
  unfold registerMutation, authAPI.register, axios_post in *.
  destruct (useMutation _ _ _ _ w) as [w1 p]. cbn [fst snd] in *.
  destruct reply as [body|resp].
  - by subst p.
  - by destruct Ho as (e & -> & _).
Qed.

Lemma login_world (data : string) (reply : Reply AuthData) (w : World) :
  login data reply w =
    let w1 := put_on_wire (request_onFulfilled w (new_config "post" "/api/auth/login"
                                                     (Some data))) w in
    match reply with
    | Success body => login_onSuccess body w1
    | Failure resp =>
        toast_error (or_default (resp ≫= detail) "Login failed")
          (if bool_decide (status <$> resp = Some 401%Z)
           then window_location_href "/auth/login"
                  (removeItem "refreshToken" (removeItem "accessToken" w1))
           else w1)
    end.
Proof.
  unfold login, loginMutation, authAPI.login, axios_post.
  rewrite useMutation_world. cbv zeta. destruct reply as [body|resp]; [done|].
  change (negb (_retry (new_config "post" "/api/auth/login" (Some data)))) with true.
  rewrite andb_true_r. by destruct (bool_decide _).
Qed.

Lemma register_world (data : string) (reply : Reply AuthData) (w : World) :
  register data reply w =
    let w1 := put_on_wire (request_onFulfilled w (new_config "post" "/api/auth/register"
                                                     (Some data))) w in
    match reply with
    | Success body => register_onSuccess body w1
    | Failure resp =>
        toast_error (or_default (resp ≫= detail) "Registration failed")
          (if bool_decide (status <$> resp = Some 401%Z)
           then window_location_href "/auth/login"
                  (removeItem "refreshToken" (removeItem "accessToken" w1))
           else w1)
    end.
Proof.
  unfold register, registerMutation, authAPI.register, axios_post.
  rewrite useMutation_world. cbv zeta. destruct reply as [body|resp]; [done|].
  change (negb (_retry (new_config "post" "/api/auth/register" (Some data)))) with true.
  rewrite andb_true_r. by destruct (bool_decide _).
Qed.

(** X1.  The login form goes to the dashboard exactly when the login call
    succeeded.  On success the router is sent to [/dashboard], the returned
    user is set and the welcome notification shown; on any failure the
    router is not touched, the user stays as it was, the error notification
    carries the server's detail (or the fallback text) and the error is
    logged, not rethrown. *)
Theorem LoginPage_onSubmit_outcome (data : string) (reply : Reply AuthData) (w : World) :
  let w' := LoginPage_onSubmit data reply w in
  match reply with
  | Success body =>
      history w' = "/dashboard" :: history w ∧
      user w' = Some (data_user body) ∧
      getItem "accessToken" w' = Some (access_token body) ∧
      toasts w' = toast_success_msg "Welcome back!" :: toasts w ∧
      console w' = console w
  | Failure resp =>
      history w' = history w ∧
      user w' = user w ∧
      toasts w' = toast_error_msg (or_default (resp ≫= detail) "Login failed") :: toasts w ∧
      console w' = "Login error:" :: console w
  end.
Proof.
  cbv zeta. rewrite LoginPage_onSubmit_world, login_world. cbv zeta.
  destruct reply as [body|resp].
  - unfold login_onSuccess. unfold_actions. split_and!; try done.
    apply lookup_insert_eq.
  - unfold console_error. destruct (bool_decide _); by unfold_actions.
Qed.

(** X2.  The register form behaves the same way with its own texts. *)
Theorem RegisterPage_onSubmit_outcome (data : string) (reply : Reply AuthData)
    (w : World) :
  let w' := RegisterPage_onSubmit data reply w in
  match reply with
  | Success body =>
      history w' = "/dashboard" :: history w ∧
      user w' = Some (data_user body) ∧
      getItem "accessToken" w' = Some (access_token body) ∧
      toasts w' = toast_success_msg "Account created successfully!" :: toasts w ∧
      console w' = console w
  | Failure resp =>
      history w' = history w ∧
      user w' = user w ∧
      toasts w' =
        toast_error_msg (or_default (resp ≫= detail) "Registration failed") :: toasts w ∧
      console w' = "Registration error:" :: console w
  end.
Proof.
  cbv zeta. rewrite RegisterPage_onSubmit_world, register_world. cbv zeta.
  destruct reply as [body|resp].
  - unfold register_onSuccess. unfold_actions. split_and!; try done.
    apply lookup_insert_eq.
  - unfold console_error. destruct (bool_decide _); by unfold_actions.
Qed.

(** X3.  On a page whose store is resolved and not loading, a login form
    submit that succeeds ends at a location where the guard renders the
    dashboard: the router's new location is the dashboard route and [App]
    shows the dashboard page there. *)
Theorem login_submit_reaches_dashboard
    (data : string) (body : AuthData) (w : World) :
  isInitialized w = true →
  query_isLoading w = false →
  let w' := LoginPage_onSubmit data (Success body) w in
  ∃ target,
    head (history w') = Some target ∧
    App w' (segments target) = AppDiv (DashboardLayout DashboardPage).
Proof.
  intros Hinit Hq. cbv zeta. exists "/dashboard".
  rewrite LoginPage_onSubmit_world, login_world. cbv zeta.
  unfold login_onSuccess. split; [by unfold_actions|].
  change (segments "/dashboard") with ["dashboard"].
  unfold App, ProtectedRoute, useAuth. cbv zeta. unfold_actions.
  cbn [isLoading ctx_user]. rewrite Hinit, Hq. reflexivity.
Qed.

Lemma login_submit_reaches_dashboard_witness :
  isInitialized anonymous = true ∧ query_isLoading anonymous = false ∧
  ∃ target,
    head (history (LoginPage_onSubmit "a@b.com:x"
                     (Success {| access_token := "t1"; data_user := alice |}) anonymous))
      = Some target ∧
    App (LoginPage_onSubmit "a@b.com:x"
           (Success {| access_token := "t1"; data_user := alice |}) anonymous)
      (segments target) = AppDiv (DashboardLayout DashboardPage).
Proof.
  split; [reflexivity|]. split; [reflexivity|].
  exact (login_submit_reaches_dashboard "a@b.com:x"
           {| access_token := "t1"; data_user := alice |} anonymous eq_refl eq_refl).
Defined.

(** X4.  A login or register call that the server answers with a 401 (as
    for a wrong password) runs the pipeline's teardown like any other call:
    the login entry point is assigned to [window.location.href] and the
    stored tokens are removed, on top of the error notification.  With any
    other failure no navigation is issued and storage is left alone. *)
Theorem failed_login_teardown (data : string) (resp : option ErrorResponse) (w : World) :
  let w1 := LoginPage_onSubmit data (Failure resp) w in
  let w2 := RegisterPage_onSubmit data (Failure resp) w in
  (status <$> resp = Some 401%Z →
   location_assigns w1 = "/auth/login" :: location_assigns w ∧
   getItem "accessToken" w1 = None ∧
   location_assigns w2 = "/auth/login" :: location_assigns w ∧
   getItem "accessToken" w2 = None) ∧
  (status <$> resp ≠ Some 401%Z →
   location_assigns w1 = location_assigns w ∧ localStorage w1 = localStorage w ∧
   location_assigns w2 = location_assigns w ∧ localStorage w2 = localStorage w).
Proof.
  cbv zeta.
  rewrite LoginPage_onSubmit_world, RegisterPage_onSubmit_world, login_world,
    register_world.
  cbv zeta. unfold console_error. split; intros H.
  - rewrite !bool_decide_eq_true_2 by done. unfold_actions.
    rewrite lookup_delete_ne by done. by rewrite lookup_delete_eq.
  - rewrite !bool_decide_eq_false_2 by done. by unfold_actions.
Qed.

Lemma failed_login_teardown_witness :
  let resp := Some {| status := 401; detail := Some "Incorrect email or password" |} in
  status <$> resp = Some 401%Z ∧
  location_assigns (LoginPage_onSubmit "a@b.com:x" (Failure resp) signed_in)
    = ["/auth/login"] ∧
  getItem "accessToken" (LoginPage_onSubmit "a@b.com:x" (Failure resp) signed_in) = None.
Proof.
  cbv zeta. split; [reflexivity|].
  destruct (failed_login_teardown "a@b.com:x"
              (Some {| status := 401; detail := Some "Incorrect email or password" |})
              signed_in) as (H & _).
  destruct (H eq_refl) as (H1 & H2 & _). split; [exact H1 | exact H2].
Defined.

(** ** The OAuth buttons *)

(** X5.  Starting the Google or Microsoft sign-in goes past the pipeline
    and the session: the one request it sends carries no headers (no bearer
    token even when one is stored), and storage, user and router are left
    alone.  The browser is sent to the returned [auth_url] exactly when it
    is non-empty.  Only an exception shows the error notification and
    clears the button's loading flag; an answer without [auth_url] does
    neither, and the flag stays set. *)
Theorem oauth_start_outcome (outcome : FetchOutcome) (st : LoginPageState) (w : World) :
  let '(st1, w1) := handleGoogleLogin outcome st w in
  let '(st2, w2) := handleMicrosoftLogin outcome st w in
  (localStorage w1 = localStorage w ∧ user w1 = user w ∧ history w1 = history w ∧
   sent w1 = new_config "get" "/api/auth/google/login" None :: sent w ∧
   isMicrosoftLoading st1 = isMicrosoftLoading st) ∧
  (localStorage w2 = localStorage w ∧ user w2 = user w ∧ history w2 = history w ∧
   sent w2 = new_config "get" "/api/auth/microsoft/login" None :: sent w ∧
   isGoogleLoading st2 = isGoogleLoading st) ∧
  match outcome with
  | FetchJson (Some target) =>
      if String.eqb target ""
      then location_assigns w1 = location_assigns w ∧ toasts w1 = toasts w ∧
           isGoogleLoading st1 = true ∧
           location_assigns w2 = location_assigns w ∧ toasts w2 = toasts w ∧
           isMicrosoftLoading st2 = true
      else location_assigns w1 = target :: location_assigns w ∧ toasts w1 = toasts w ∧
           isGoogleLoading st1 = true ∧
           location_assigns w2 = target :: location_assigns w ∧ toasts w2 = toasts w ∧
           isMicrosoftLoading st2 = true
  | FetchJson None =>
      location_assigns w1 = location_assigns w ∧ toasts w1 = toasts w ∧
      isGoogleLoading st1 = true ∧
      location_assigns w2 = location_assigns w ∧ toasts w2 = toasts w ∧
      isMicrosoftLoading st2 = true
  | FetchThrows =>
      location_assigns w1 = location_assigns w ∧
      toasts w1 = toast_error_msg "Failed to initialize Google login" :: toasts w ∧
      isGoogleLoading st1 = false ∧
      location_assigns w2 = location_assigns w ∧
      toasts w2 = toast_error_msg "Failed to initialize Microsoft login" :: toasts w ∧
      isMicrosoftLoading st2 = false
  end.
Proof.
  unfold handleGoogleLogin, handleMicrosoftLogin, fetch. cbv zeta.
  destruct outcome as [[target|]|]; cbn [truthy default negb].
  - destruct (String.eqb target ""); cbn [negb]; by unfold_actions.
  - by unfold_actions.
  - by unfold_actions.
Qed.

(** ** A burst of failed responses *)

Lemma response_onRejected_step (error : AxiosError) (w : World) :
  let w' := fst (response_onRejected (A:=unit) error w) in
  location_assigns w' =
    (if tears_down error then "/auth/login" :: location_assigns w else location_assigns w) ∧
  localStorage w' =
    (if tears_down error
     then delete "refreshToken" (delete "accessToken" (localStorage w))
     else localStorage w) ∧
  user w' = user w ∧ toasts w' = toasts w ∧ history w' = history w.
Proof.
  cbv zeta. unfold response_onRejected, tears_down. cbv zeta.
  by destruct (status_is_401 error && negb (_retry (config error))).
Qed.

Lemma teardown_storage_idemp (m : gmap string string) :
  delete "refreshToken" (delete "accessToken"
    (delete "refreshToken" (delete "accessToken" m)))
  = delete "refreshToken" (delete "accessToken" m).
Proof.
  apply map_eq. intros k. rewrite !lookup_delete. by repeat case_decide.
Qed.

Lemma replicate_shift {A} (n : nat) (x : A) (l : list A) :
  (replicate n x ++ x :: l = x :: replicate n x ++ l)%list.
Proof. induction n as [|n IH]; [done|]. cbn. by rewrite IH. Qed.

(** X6.  When several failed responses are handled one after the other,
    each 401 of a request not yet marked runs the teardown again: storage
    ends as after a single teardown (removing the removed tokens again
    changes nothing), but the login entry point is assigned to
    [window.location.href] once per such response, not once per burst.
    The user is never touched and no notification is shown. *)
Theorem teardown_burst (errors : list AxiosError) (w : World) :
  let w' := handle_all errors w in
  location_assigns w' =
    (replicate (length (List.filter tears_down errors)) "/auth/login"
       ++ location_assigns w)%list ∧
  localStorage w' =
    (if existsb tears_down errors
     then delete "refreshToken" (delete "accessToken" (localStorage w))
     else localStorage w) ∧
  user w' = user w ∧ toasts w' = toasts w.
Proof.
  cbv zeta. revert w. unfold handle_all.
  induction errors as [|error rest IH]; intros w; [done|].
  cbn [foldl List.filter existsb].
  destruct (IH (fst (response_onRejected (A:=unit) error w))) as (Hl & Hs & Hu & Ht).
  destruct (response_onRejected_step error w) as (Hl1 & Hs1 & Hu1 & Ht1 & _).
  rewrite Hl, Hs, Hu, Ht, Hl1, Hs1, Hu1, Ht1.
  destruct (tears_down error); cbn [orb length replicate app].
  - split_and!; try done.
    + apply replicate_shift.
    + destruct (existsb tears_down rest); [apply teardown_storage_idemp | done].
  - done.
Qed.

(** ** More on the route guard *)

Lemma auth_routes_cases (rest : list string) :
  auth_routes rest = Navigate "/auth/login" true ∨
  auth_routes rest = LoginPage ∨ auth_routes rest = RegisterPage ∨
  auth_routes rest = OAuthCallback.
Proof.
  unfold auth_routes. destruct rest as [|segment [|? ?]]; auto.
  cbn [route_lookup].
  repeat (destruct (eqb_nocase _ segment); [cbn [default]; auto|]). auto.
Qed.

Lemma app_routes_cases (location : list string) :
  app_routes location = Navigate "/dashboard" true ∨
  (find_navigate (app_routes location) = None ∧
   protected_content (app_routes location) = true ∧
   public_content (app_routes location) = false).
Proof.
  unfold app_routes. destruct location as [|segment [|? ?]]; auto.
  cbn [route_lookup].
  repeat (destruct (eqb_nocase _ segment); [cbn [default]; auto|]). auto.
Qed.

(** X7.  Whatever the location and whether or not the store is loading,
    [App] shows nothing of the protected zone (no dashboard layout, no
    application page) while no user is set, and nothing of the public zone
    (no auth layout, no login, register or callback screen) while a user is
    set. *)
Theorem guard_never_shows_wrong_zone (w : World) (location : list string) :
  (user w = None → protected_content (App w location) = false) ∧
  (is_Some (user w) → public_content (App w location) = false).
Proof.
  unfold App, PublicRoute, ProtectedRoute. cbv zeta.
  destruct (isLoading (useAuth w)); [done|].
  cbn [useAuth ctx_user protected_content public_content].
  split.
  - intros ->. cbn [negb]. destruct (is_public location); [|done].
    change (bool_decide (is_Some (@None User))) with false. cbn [protected_content].
    by destruct (auth_routes_cases (tail location)) as [-> | [-> | [-> | ->]]].
  - intros Hu. rewrite bool_decide_eq_true_2 by done. cbn [negb].
    destruct (is_public location); [done|]. cbn [public_content].
    destruct (app_routes_cases location) as [-> | (_ & _ & ->)]; done.
Qed.

Lemma guard_never_shows_wrong_zone_witness :
  user anonymous = None ∧
  protected_content (App anonymous ["dashboard"]) = false ∧
  is_Some (user signed_in) ∧
  public_content (App signed_in ["auth"; "login"]) = false.
Proof.
  assert (is_Some (user signed_in)) as Hu by (by eexists).
  destruct (guard_never_shows_wrong_zone anonymous ["dashboard"]) as (H1 & _).
  destruct (guard_never_shows_wrong_zone signed_in ["auth"; "login"]) as (_ & H2).
  split; [reflexivity|]. split; [exact (H1 eq_refl)|]. split; [exact Hu | exact (H2 Hu)].
Defined.

(** X8.  Redirects do not chain: when the store is not loading and [App]
    answers a location with a redirect, [App] at the redirect's target (in
    the same store) renders a screen and no further redirect.  So no
    location can send the router around in a loop. *)
Theorem redirect_lands_on_a_screen (w : World) (location : list string) (target : string) :
  isLoading (useAuth w) = false →
  find_navigate (App w location) = Some target →
  find_navigate (App w (segments target)) = None ∧
  (target = "/auth/login" ∨ target = "/dashboard").
Proof.
  intros Hload. unfold App, PublicRoute, ProtectedRoute. cbv zeta. rewrite Hload.
  cbn [useAuth ctx_user find_navigate].
  destruct (user w) as [u|] eqn:Hu.
  - change (bool_decide (is_Some (Some u))) with true. cbn [negb].
    assert (find_navigate
              (AppDiv (if is_public (segments "/dashboard")
                       then Navigate "/dashboard" true
                       else DashboardLayout (app_routes (segments "/dashboard")))) = None)
      as Hhome by reflexivity.
    destruct (is_public location); cbn [find_navigate].
    + intros [= <-]. auto.
    + destruct (app_routes_cases location) as [-> | (-> & _)]; [|done].
      intros [= <-]. auto.
  - change (bool_decide (is_Some (@None User))) with false. cbn [negb].
    assert (find_navigate
              (AppDiv (if is_public (segments "/auth/login")
                       then AuthLayout (auth_routes (tail (segments "/auth/login")))
                       else Navigate "/auth/login" true)) = None)
      as Hlogin by reflexivity.
    destruct (is_public location); cbn [find_navigate].
    + destruct (auth_routes_cases (tail location)) as [-> | [-> | [-> | ->]]];
        try done.
      intros [= <-]. auto.
    + intros [= <-]. auto.
Qed.

Lemma redirect_lands_on_a_screen_witness :
  isLoading (useAuth anonymous) = false ∧
  find_navigate (App anonymous ["settings"]) = Some "/auth/login" ∧
  find_navigate (App anonymous (segments "/auth/login")) = None.
Proof.
  split; [reflexivity|]. split; [reflexivity|].
  destruct (redirect_lands_on_a_screen anonymous ["settings"] "/auth/login"
              eq_refl eq_refl) as (H & _).
  exact H.
Defined.

(** ** What no operation does *)

Ltac storage_cases :=
  rewrite ?lookup_delete, ?lookup_insert; repeat case_decide; subst;
  try congruence; auto.

Ltac frame_goal :=
  try done;
  match goal with
  | |- ∀ k, k ≠ _ → _ => intros k Hk1 Hk2; storage_cases
  | |- _ !! "refreshToken" = None → _ => intros Hr; storage_cases
  end.

(** What every operation keeps, one operation at a time. *)
Lemma run_frame (op : Op) (w : World) :
  let w' := run op w in
  (isInitialized w = true → isInitialized w' = true) ∧
  (∀ k, k ≠ "accessToken" → k ≠ "refreshToken" →
        localStorage w' !! k = localStorage w !! k) ∧
  (localStorage w !! "refreshToken" = None → localStorage w' !! "refreshToken" = None).
Proof.
  cbv zeta.
  destruct op as [reply|data reply|data reply|reply|email reply|token password reply
                 |params|cfg reply|reply]; cbn [run].
  - (* initialize *)
    unfold initialize. cbv zeta. rewrite AuthProvider_mount_eq. cbn [query_isLoading].
    destruct (token_present w) eqn:Htok.
    + unfold currentUser_settle, authAPI.getCurrentUser, axios_get.
      rewrite axios_request_eq. cbv zeta.
      destruct reply as [body|resp].
      * unfold currentUser_onSuccess. unfold_actions. split_and!; frame_goal.
      * rewrite status_is_401_reply.
        change (negb (_retry (new_config "get" "/api/auth/me" None))) with true.
        rewrite andb_true_r.
        destruct (bool_decide (status <$> resp = Some 401%Z));
          unfold currentUser_onError; unfold_actions; split_and!; frame_goal.
    + cbn [isInitialized localStorage negb]. split_and!; frame_goal.
  - (* login *)
    rewrite login_world. cbv zeta. destruct reply as [body|resp].
    + unfold login_onSuccess. unfold_actions. split_and!; frame_goal.
    + destruct (bool_decide _); unfold_actions; split_and!; frame_goal.
  - (* register *)
    rewrite register_world. cbv zeta. destruct reply as [body|resp].
    + unfold register_onSuccess. unfold_actions. split_and!; frame_goal.
    + destruct (bool_decide _); unfold_actions; split_and!; frame_goal.
  - (* logout *)
    unfold logout, logoutMutation, useMutation, authAPI.logout, axios_post.
    rewrite axios_request_eq. cbv zeta.
    destruct reply as [body|resp].
    + cbn [fst]. unfold logout_onSettled. unfold_actions. split_and!; frame_goal.
    + destruct (status_is_401 _ && _); cbn [fst];
        unfold logout_onSettled; unfold_actions; split_and!; frame_goal.
  - (* forgotPassword *)
    unfold forgotPassword, forgotPasswordMutation, authAPI.forgotPassword, axios_post.
    rewrite useMutation_world.
    destruct reply as [body|resp]; [|destruct (_ && _)]; unfold_actions;
      split_and!; frame_goal.
  - (* resetPassword *)
    unfold resetPassword, resetPasswordMutation, authAPI.resetPassword, axios_post.
    rewrite useMutation_world.
    destruct reply as [body|resp]; [|destruct (_ && _)]; unfold_actions;
      split_and!; frame_goal.
  - (* OAuth callback *)
    unfold handleCallback. cbv zeta.
    destruct (truthy (searchParams_get params "error"));
      [|destruct (truthy (searchParams_get params "token"))]; unfold_actions;
      split_and!; frame_goal.
  - (* any other call *)
    rewrite axios_request_world.
    destruct (_ && _); unfold_actions; split_and!; frame_goal.
  - (* refetch of the current user *)
    unfold currentUser_refetch.
    destruct (currentUser_enabled w); [|by split_and!].
    unfold currentUser_settle, authAPI.getCurrentUser, axios_get.
    rewrite axios_request_eq. cbv zeta.
    destruct reply as [body|resp].
    + unfold currentUser_onSuccess. unfold_actions. split_and!; frame_goal.
    + rewrite status_is_401_reply.
      change (negb (_retry (new_config "get" "/api/auth/me" None))) with true.
      rewrite andb_true_r.
      destruct (bool_decide (status <$> resp = Some 401%Z));
        unfold currentUser_onError; unfold_actions; split_and!; frame_goal.
Qed.

Lemma run_all_invariant (P : World → Prop) :
  (∀ op w, P w → P (run op w)) →
  ∀ ops w, P w → P (run_all ops w).
Proof.
  intros Hstep ops. unfold run_all.
  induction ops as [|op ops IH]; intros w Hw; [done|].
  cbn [foldl]. apply IH, Hstep, Hw.
Qed.

Lemma initialize_isInitialized (reply : Reply User) (w : World) :
  isInitialized (initialize reply w) = true.
Proof.
  unfold initialize. cbv zeta.
  rewrite AuthProvider_mount_eq. cbn [query_isLoading].
  destruct (token_present w) eqn:Htok.
  - unfold currentUser_settle, authAPI.getCurrentUser, axios_get.
    rewrite axios_request_eq. cbv zeta.
    destruct reply as [body|resp].
    + unfold currentUser_onSuccess. by unfold_actions.
    + rewrite status_is_401_reply.
      change (negb (_retry (new_config "get" "/api/auth/me" None))) with true.
      rewrite andb_true_r.
      destruct (bool_decide (status <$> resp = Some 401%Z));
        unfold currentUser_onError; by unfold_actions.
  - by cbn [isInitialized negb].
Qed.

(** X9.  Once session resolution has run on a page, the store stays
    initialized through every later operation, in any number and order
    (logins, logouts, failed calls, 401 teardowns, OAuth callbacks,
    refetches of the current user, further resolutions): nothing in the
    code sets the flag back.  From then on the
    guard's loading screen can only come from the current-user query. *)
Theorem stays_initialized (ops : list Op) (reply : Reply User) (w : World) :
  let w' := run_all ops (initialize reply w) in
  isInitialized w' = true ∧ isLoading (useAuth w') = query_isLoading w'.
Proof.
  cbv zeta.
  assert (isInitialized (run_all ops (initialize reply w)) = true) as Hinit.
  { apply (run_all_invariant (λ w, isInitialized w = true)).
    - intros op w0. apply run_frame.
    - apply initialize_isInitialized. }
  split; [exact Hinit|].
  rewrite isLoading_useAuth, Hinit. apply orb_false_r.
Qed.

(** X10.  The session code owns two storage keys and writes one.  Through
    any sequence of operations every key other than [accessToken] and
    [refreshToken] keeps its value, and [refreshToken] is only ever
    removed: if it is absent at the start it is absent at the end, so the
    two [removeItem('refreshToken')] calls never find anything this code
    stored. *)
Theorem storage_keys_touched (ops : list Op) (w : World) :
  (∀ k, k ≠ "accessToken" → k ≠ "refreshToken" →
        localStorage (run_all ops w) !! k = localStorage w !! k) ∧
  (localStorage w !! "refreshToken" = None →
   localStorage (run_all ops w) !! "refreshToken" = None).
Proof.
  split.
  - intros k Hk1 Hk2.
    apply (run_all_invariant (λ w', localStorage w' !! k = localStorage w !! k));
      [|done].
    intros op w0 Hw0. destruct (run_frame op w0) as (_ & Hk & _).
    by rewrite (Hk k Hk1 Hk2).
  - apply (run_all_invariant (λ w', localStorage w' !! "refreshToken" = None)).
    intros op w0. apply run_frame.
Qed.

Lemma storage_keys_touched_witness :
  let ops := [OpLogin "a@b.com:x" (Success {| access_token := "t2"; data_user := bob |});
              OpRequest (new_config "get" "/api/emails" None)
                (Failure (Some {| status := 401; detail := None |}));
              OpLogout (Success tt)] in
  let w := setItem "theme" "dark" signed_in in
  localStorage w !! "refreshToken" = None ∧
  localStorage (run_all ops w) !! "theme" = Some "dark" ∧
  localStorage (run_all ops w) !! "refreshToken" = None.
Proof.
  cbv zeta.
  destruct (storage_keys_touched
              [OpLogin "a@b.com:x" (Success {| access_token := "t2"; data_user := bob |});
               OpRequest (new_config "get" "/api/emails" None)
                 (Failure (Some {| status := 401; detail := None |}));
               OpLogout (Success tt)]
              (setItem "theme" "dark" signed_in)) as (Hk & Hr).
  assert (localStorage (setItem "theme" "dark" signed_in) !! "refreshToken" = None) as H0
    by (vm_compute; reflexivity).
  split; [exact H0|]. split; [|exact (Hr H0)].
  rewrite (Hk "theme"); [vm_compute; reflexivity | discriminate | discriminate].
Defined.

(** ** The OAuth callback, case by case *)

(** X13.  The callback handler always shows exactly one notification and
    sends the router to exactly one place, and it goes to the dashboard
    exactly when it stored a token: with no (or an empty) [error] and a
    non-empty [token] the token is written as it came, with no request to
    check it and without setting the user; in every other case storage is
    left alone, an error is shown and the router goes to the login screen.
    With neither parameter the error is the missing-token text. *)
Theorem callback_outcome (searchParams : list (string * string)) (w : World) :
  let w' := handleCallback searchParams w in
  let token := searchParams_get searchParams "token" in
  let error := searchParams_get searchParams "error" in
  user w' = user w ∧ sent w' = sent w ∧ location_assigns w' = location_assigns w ∧
  (if negb (truthy error) && truthy token
   then localStorage w' = <["accessToken" := default "" token]> (localStorage w) ∧
        toasts w' = toast_success_msg "Successfully signed in!" :: toasts w ∧
        history w' = "/dashboard" :: history w
   else localStorage w' = localStorage w ∧
        (∃ msg, toasts w' = toast_error_msg msg :: toasts w) ∧
        history w' = "/auth/login" :: history w) ∧
  (token = None → error = None →
   toasts w' = toast_error_msg "No authentication token received" :: toasts w).
Proof.
  cbv zeta. unfold handleCallback.
  destruct (searchParams_get searchParams "error") as [e|] eqn:He;
    destruct (searchParams_get searchParams "token") as [t|] eqn:Ht;
    cbn [truthy default negb andb];
    repeat match goal with |- context [String.eqb ?s ""] => destruct (String.eqb s "") end;
    cbn [negb andb]; unfold_actions; split_and!; try done; by eexists.
Qed.

Lemma callback_outcome_witness :
  searchParams_get [("state", "xyz")] "token" = None ∧
  searchParams_get [("state", "xyz")] "error" = None ∧
  toasts (handleCallback [("state", "xyz")] anonymous)
    = [toast_error_msg "No authentication token received"].
Proof.
  split; [reflexivity|]. split; [reflexivity|].
  destruct (callback_outcome [("state", "xyz")] anonymous) as (_ & _ & _ & _ & H).
  exact (H eq_refl eq_refl).
Defined.

(** ** Error texts *)

(** X14.  The text of an error notification is the server's [detail] when
    the failed response carries a non-empty one, and the operation's
    fallback text in every other case: no response at all (network
    failure), a response without [detail], or an empty [detail].  With a
    non-empty fallback the notification is never empty. *)
Theorem error_message_fallback (error : AxiosError) (fallback : string) :
  (∀ r d, response error = Some r → detail r = Some d → d ≠ "" →
          error_message error fallback = d) ∧
  (response error = None → error_message error fallback = fallback) ∧
  (∀ r, response error = Some r → detail r = None ∨ detail r = Some "" →
        error_message error fallback = fallback) ∧
  (fallback ≠ "" → error_message error fallback ≠ "").
Proof.
  unfold error_message, or_default. split_and!.
  - intros r d -> Hd Hne. cbn. rewrite Hd. cbn [truthy default].
    destruct (String.eqb_spec d ""); [contradiction | done].
  - by intros ->.
  - intros r -> [Hd | Hd]; cbn; by rewrite Hd.
  - intros Hne. destruct (response error ≫= detail) as [d|]; cbn [truthy default]; [|done].
    destruct (String.eqb_spec d ""); cbn [negb]; done.
Qed.

Lemma error_message_fallback_witness :
  let error := {| config := new_config "post" "/api/auth/login" None;
                  response := Some {| status := 422; detail := Some "Email is required" |} |} in
  response error = Some {| status := 422; detail := Some "Email is required" |} ∧
  error_message error "Login failed" = "Email is required" ∧
  error_message {| config := config error; response := None |} "Login failed" = "Login failed".
Proof.
  cbv zeta. split; [reflexivity|].
  split.
  - destruct (error_message_fallback
                {| config := new_config "post" "/api/auth/login" None;
                   response := Some {| status := 422; detail := Some "Email is required" |} |}
                "Login failed") as (H & _).
    apply (H _ "Email is required" eq_refl eq_refl). discriminate.
  - destruct (error_message_fallback
                {| config := new_config "post" "/api/auth/login" None; response := None |}
                "Login failed") as (_ & H & _).
    exact (H eq_refl).
Defined.

(** ** More on the request interceptor *)

(** X15.  The request interceptor looks at storage only and is idempotent:
    running it again on its own result changes nothing.  With a token
    stored it overwrites whatever [Authorization] header the request
    brought; with none stored it leaves such a header in place, so a
    request that already carries a bearer header keeps it after the token
    is gone. *)
Theorem request_interceptor_idempotent (w : World) (cfg : RequestConfig) :
  request_onFulfilled w (request_onFulfilled w cfg) = request_onFulfilled w cfg ∧
  (∀ w2, localStorage w2 = localStorage w →
         request_onFulfilled w2 cfg = request_onFulfilled w cfg) ∧
  (∀ stale, token_present w = true →
     request_onFulfilled w (set_headers (<["Authorization" := stale]> (headers cfg)) cfg)
     = request_onFulfilled w cfg) ∧
  (∀ stale, token_present w = false →
     headers (request_onFulfilled w
                (set_headers (<["Authorization" := stale]> (headers cfg)) cfg))
       !! "Authorization" = Some stale).
Proof.
  unfold request_onFulfilled, token_present, getItem. cbv zeta. split_and!.
  - destruct (truthy (localStorage w !! "accessToken")); [|done].
    unfold set_headers. cbn [headers url method data _retry]. by rewrite insert_insert_eq.
  - by intros w2 ->.
  - intros stale ->. unfold set_headers. cbn [headers url method data _retry].
    by rewrite insert_insert_eq.
  - intros stale ->. unfold set_headers. cbn [headers]. apply lookup_insert_eq.
Qed.

Lemma request_interceptor_idempotent_witness :
  token_present signed_in = true ∧
  request_onFulfilled signed_in
    (set_headers (<["Authorization" := "Bearer old"]> ∅) (new_config "get" "/api/emails" None))
  = request_onFulfilled signed_in (new_config "get" "/api/emails" None) ∧
  token_present anonymous = false ∧
  headers (request_onFulfilled anonymous
             (set_headers (<["Authorization" := "Bearer old"]> ∅)
                (new_config "get" "/api/emails" None)))
    !! "Authorization" = Some "Bearer old".
Proof.
  split; [reflexivity|].
  destruct (request_interceptor_idempotent signed_in (new_config "get" "/api/emails" None))
    as (_ & _ & H3 & _).
  destruct (request_interceptor_idempotent anonymous (new_config "get" "/api/emails" None))
    as (_ & _ & _ & H4).
  split; [exact (H3 "Bearer old" eq_refl)|]. split; [reflexivity|].
  exact (H4 "Bearer old" eq_refl).
Defined.

(** X16.  The credential on the wire follows the session: the first call
    after a successful login carries the token that login returned, and
    the first call after a logout goes out exactly as the caller built it
    (without an [Authorization] header if it had none), whatever either
    call's own reply is. *)
Theorem bearer_follows_session
    (A : Type) (cfg : RequestConfig) (reply : Reply A) (w : World) :
  (∀ data body, access_token body ≠ "" →
     ∃ c, head (sent (fst (axios_request cfg reply (login data (Success body) w)))) = Some c ∧
          headers c !! "Authorization" = Some ("Bearer " +:+ access_token body)) ∧
  (∀ r, head (sent (fst (axios_request cfg reply (logout r w)))) = Some cfg).
Proof.
  split.
  - intros data body Hne. rewrite axios_request_sends_intercepted. cbn [head].
    eexists. split; [reflexivity|].
    pose proof (login_session data (Success body) w) as (_ & Hs).
    unfold request_onFulfilled, getItem. cbv zeta.
    rewrite Hs, lookup_insert_eq, (truthy_Some _ Hne). cbn [default set_headers headers].
    apply lookup_insert_eq.
  - intros r. rewrite axios_request_sends_intercepted. cbn [head]. f_equal.
    destruct (logout_session r w) as (Htok & _).
    unfold request_onFulfilled. cbv zeta. by rewrite Htok.
Qed.

Lemma bearer_follows_session_witness :
  access_token {| access_token := "t1"; data_user := alice |} ≠ "" ∧
  ∃ c, head (sent (fst (axios_request (A:=unit) (new_config "get" "/api/emails" None)
                          (Success tt)
                          (login "a@b.com:x"
                             (Success {| access_token := "t1"; data_user := alice |})
                             anonymous)))) = Some c ∧
       headers c !! "Authorization" = Some "Bearer t1".
Proof.
  assert (access_token {| access_token := "t1"; data_user := alice |} ≠ "") as Hne
    by discriminate.
  split; [exact Hne|].
  destruct (bearer_follows_session unit (new_config "get" "/api/emails" None) (Success tt)
              anonymous) as (H & _).
  exact (H "a@b.com:x" {| access_token := "t1"; data_user := alice |} Hne).
Defined.

(** ** The password calls *)

(** X17.  Asking for a password reset and resetting a password never change
    the user, the initialized flag, the query cache or the router: they
    send one request through the pipeline and show one notification, the
    success text on success and the server's detail (or the fallback) on
    failure.  Storage is left alone unless the reply is a 401, which tears
    down like on any other call. *)
Theorem password_calls_only_notify
    (email token password : string) (reply : Reply unit) (w : World) :
  let w1 := forgotPassword email reply w in
  let w2 := resetPassword token password reply w in
  (user w1 = user w ∧ isInitialized w1 = isInitialized w ∧
   queryCache w1 = queryCache w ∧ history w1 = history w) ∧
  (user w2 = user w ∧ isInitialized w2 = isInitialized w ∧
   queryCache w2 = queryCache w ∧ history w2 = history w) ∧
  match reply with
  | Success _ =>
      toasts w1 = toast_success_msg "Password reset email sent!" :: toasts w ∧
      toasts w2 = toast_success_msg "Password reset successfully!" :: toasts w ∧
      localStorage w1 = localStorage w ∧ localStorage w2 = localStorage w
  | Failure resp =>
      toasts w1 =
        toast_error_msg (or_default (resp ≫= detail) "Failed to send reset email")
          :: toasts w ∧
      toasts w2 =
        toast_error_msg (or_default (resp ≫= detail) "Password reset failed") :: toasts w ∧
      (status <$> resp ≠ Some 401%Z →
       localStorage w1 = localStorage w ∧ localStorage w2 = localStorage w)
  end.
Proof.
  cbv zeta.
  unfold forgotPassword, forgotPasswordMutation, authAPI.forgotPassword,
    resetPassword, resetPasswordMutation, authAPI.resetPassword, axios_post.
  rewrite !useMutation_world.
  destruct reply as [body|resp].
  - by unfold_actions.
  - change (negb (_retry (new_config "post" "/api/auth/forgot-password" (Some email))))
      with true.
    change (negb (_retry (new_config "post" "/api/auth/reset-password"
                            (Some (token +:+ password))))) with true.
    rewrite !andb_true_r. unfold error_message. cbn [response].
    destruct (bool_decide (status <$> resp = Some 401%Z)) eqn:H401; unfold_actions.
    + apply bool_decide_eq_true in H401. split_and!; try done.
    + split_and!; try done.
Qed.

(** ** The sidebar *)

Ltac pick_item i E :=
  eexists; split;
  [ apply (list_elem_of_lookup_2 navigation i); reflexivity
  | cbn [map]; rewrite <- E; reflexivity ].

(** X18.  The sidebar and the route table agree.  Every sidebar link leads
    to a location of the protected zone for which the route table has a
    page (none falls through to the catch-all redirect); every location
    for which the route table has a page is, up to letter case, the target
    of a sidebar link; and for any pathname at most one sidebar entry is
    marked active (the mark compares the pathname exactly). *)
Theorem sidebar_matches_routes :
  Forall (λ item,
            is_public (segments (snd item)) = false ∧
            find_navigate (app_routes (segments (snd item))) = None)
         navigation ∧
  (∀ location, find_navigate (app_routes location) = None →
               ∃ item, item ∈ navigation ∧
                       map lower (segments (snd item)) = map lower location) ∧
  (∀ pathname, (List.length (List.filter (isActive pathname) navigation) ≤ 1)%nat).
Proof.
  split_and!.
  - unfold navigation. repeat constructor.
  - intros location. unfold app_routes.
    destruct location as [|segment [|? ?]]; try discriminate.
    cbn [route_lookup].
    repeat match goal with
           | |- context [eqb_nocase ?s segment] =>
               let E := fresh "E" in
               destruct (eqb_nocase s segment) eqn:E;
               [ apply String.eqb_eq in E; intros _;
                 first [ pick_item 0 E | pick_item 1 E | pick_item 2 E | pick_item 3 E
                       | pick_item 4 E | pick_item 5 E | pick_item 6 E ]
               | clear E ]
           end.
    intros H. cbv in H. discriminate.
  - intros pathname. unfold navigation, isActive. cbn [List.filter snd].
    repeat match goal with
           | |- context [String.eqb pathname ?s] =>
               destruct (String.eqb_spec pathname s) as [->|?]; [vm_compute; lia|]
           end.
    cbn. lia.
Qed.

(** ** Signing out and signing in through OAuth, end to end *)

Lemma logout_flags (reply : Reply unit) (w : World) :
  isInitialized (logout reply w) = isInitialized w ∧
  query_isLoading (logout reply w) = query_isLoading w ∧
  history (logout reply w) = history w.
Proof.
  unfold logout, logoutMutation, useMutation, authAPI.logout, axios_post.
  rewrite axios_request_eq. cbv zeta.
  destruct reply as [body|resp].
  - cbn [fst]. unfold logout_onSettled. by unfold_actions.
  - destruct (status_is_401 _ && _); cbn [fst]; unfold logout_onSettled; by unfold_actions.
Qed.

(** X19.  Signing out from the sidebar, on a page whose store is resolved
    and not loading, turns every location of the protected zone into a
    redirect to the login screen, whatever the server answered to the
    logout call, and the login screen itself is then rendered; the sign out
    itself does not move the router. *)
Theorem sign_out_leads_to_login (reply : Reply unit) (w : World) (location : list string) :
  isInitialized w = true →
  query_isLoading w = false →
  let w' := handleLogout reply w in
  history w' = history w ∧
  (is_public location = false → App w' location = AppDiv (Navigate "/auth/login" true)) ∧
  App w' (segments "/auth/login") = AppDiv (AuthLayout LoginPage).
Proof.
  intros Hinit Hq. cbv zeta. unfold handleLogout.
  destruct (logout_flags reply w) as (Hi & Hl & Hh).
  destruct (logout_session reply w) as (_ & Hu).
  split; [exact Hh|].
  unfold App, PublicRoute, ProtectedRoute. cbv zeta.
  rewrite !isLoading_useAuth, Hi, Hl, Hinit, Hq. cbn [orb negb useAuth ctx_user].
  rewrite Hu. split; [by intros ->|]. reflexivity.
Qed.

Lemma sign_out_leads_to_login_witness :
  isInitialized signed_in = true ∧ query_isLoading signed_in = false ∧
  App (handleLogout (Failure None) signed_in) ["settings"]
    = AppDiv (Navigate "/auth/login" true).
Proof.
  split; [reflexivity|]. split; [reflexivity|].
  destruct (sign_out_leads_to_login (Failure None) signed_in ["settings"] eq_refl eq_refl)
    as (_ & H & _).
  exact (H eq_refl).
Defined.

(** X20.  A token stored by the OAuth callback is the credential of the
    next session resolution: that resolution fetches the current user with
    this token as bearer, and when the server accepts it the user is set,
    the token is kept, and the guard lets the dashboard through. *)
Theorem oauth_token_resolves
    (searchParams : list (string * string)) (t : string) (body : User) (w : World) :
  truthy (searchParams_get searchParams "error") = false →
  searchParams_get searchParams "token" = Some t →
  t ≠ "" →
  let w' := initialize (Success body) (handleCallback searchParams w) in
  (∃ c, head (sent w') = Some c ∧ url c = "/api/auth/me" ∧
        headers c !! "Authorization" = Some ("Bearer " +:+ t)) ∧
  user w' = Some body ∧
  getItem "accessToken" w' = Some t ∧
  App w' (segments "/dashboard") = AppDiv (DashboardLayout DashboardPage).
Proof.
  intros Herr Htok Hne. cbv zeta.
  set (w0 := handleCallback searchParams w).
  assert (localStorage w0 !! "accessToken" = Some t) as Hstored.
  { subst w0. destruct (handleCallback_session searchParams w) as (_ & Hs).
    rewrite Hs, Herr, Htok, (truthy_Some t Hne). cbn [default]. apply lookup_insert_eq. }
  assert (token_present w0 = true) as Hpresent.
  { unfold token_present, getItem. rewrite Hstored. by apply truthy_Some. }
  pose proof (initialize_isInitialized (Success body) w0) as Hinit.
  destruct (initialize_session (Success body) w0) as (Hu & Hs).
  rewrite Hpresent in Hu, Hs.
  assert (query_isLoading (initialize (Success body) w0) = false ∧
          sent (initialize (Success body) w0)
          = request_onFulfilled w0 (new_config "get" "/api/auth/me" None) :: sent w0)
    as (Hq & Hsent).
  { unfold initialize. cbv zeta. rewrite AuthProvider_mount_eq. cbn [query_isLoading].
    rewrite Hpresent. unfold currentUser_settle, authAPI.getCurrentUser, axios_get.
    rewrite axios_request_eq. cbv zeta. unfold currentUser_onSuccess. unfold_actions.
    split; [done|]. f_equal. }
  split_and!.
  - rewrite Hsent. cbn [head]. eexists. split; [reflexivity|].
    unfold request_onFulfilled, getItem. cbv zeta.
    rewrite Hstored, (truthy_Some t Hne). cbn [default set_headers url headers new_config].
    split; [done | apply lookup_insert_eq].
  - exact Hu.
  - unfold getItem. by rewrite Hs.
  - unfold App, ProtectedRoute. cbv zeta.
    rewrite isLoading_useAuth, Hinit, Hq. cbn [orb negb useAuth ctx_user]. by rewrite Hu.
Qed.

Lemma oauth_token_resolves_witness :
  truthy (searchParams_get [("token", "abc")] "error") = false ∧
  searchParams_get [("token", "abc")] "token" = Some "abc" ∧
  "abc" ≠ "" ∧
  user (initialize (Success alice) (handleCallback [("token", "abc")] anonymous))
    = Some alice.
Proof.
  split; [reflexivity|]. split; [reflexivity|].
  assert ("abc" ≠ "") as Hne by discriminate.
  split; [exact Hne|].
  destruct (oauth_token_resolves [("token", "abc")] "abc" alice anonymous
              eq_refl eq_refl Hne) as (_ & H & _).
  exact H.
Defined.

Lemma password_calls_only_notify_witness :
  let reply := Failure (A:=unit) (Some {| status := 500; detail := None |}) in
  status <$> Some {| status := 500; detail := None |} ≠ Some 401%Z ∧
  localStorage (forgotPassword "a@b.com" reply signed_in) = localStorage signed_in ∧
  toasts (forgotPassword "a@b.com" reply signed_in)
    = [toast_error_msg "Failed to send reset email"].
Proof.
  cbv zeta.
  assert (status <$> Some {| status := 500; detail := None |} ≠ Some 401%Z) as Hne
    by discriminate.
  split; [exact Hne|].
  destruct (password_calls_only_notify "a@b.com" "tok" "pw"
              (Failure (Some {| status := 500; detail := None |})) signed_in)
    as (_ & _ & Ht & _ & Hs).
  destruct (Hs Hne) as (Hs1 & _). split; [exact Hs1 | exact Ht].
Defined.

Lemma sidebar_matches_routes_witness :
  find_navigate (app_routes ["Emails"]) = None ∧
  ∃ item, item ∈ navigation ∧ map lower (segments (snd item)) = map lower ["Emails"].
Proof.
  split; [reflexivity|].
  destruct sidebar_matches_routes as (_ & H & _).
  exact (H ["Emails"] eq_refl).
Defined.

(** ** A refetch of the current user that fails *)

(** X12.  When the current-user query fetches again on a running page with
    a token stored and the fetch fails for whatever reason (a 401, another
    status, a network failure), the user is signed out: the token is
    removed and the user cleared, while the cached ['currentUser'] entry
    stays as it was.  Without a 401 no full-page navigation is issued; the
    guard then answers every protected location with the redirect to the
    login screen. *)
Theorem failed_refetch_signs_out
    (resp : option ErrorResponse) (w : World) (location : list string) :
  token_present w = true →
  let w' := currentUser_refetch (Failure resp) w in
  user w' = None ∧
  getItem "accessToken" w' = None ∧
  queryCache w' = queryCache w ∧
  isInitialized w' = true ∧
  (status <$> resp ≠ Some 401%Z → location_assigns w' = location_assigns w) ∧
  (is_public location = false → App w' location = AppDiv (Navigate "/auth/login" true)).
Proof.
  intros Htok. cbv zeta. unfold currentUser_refetch, currentUser_enabled.
  unfold token_present in Htok. rewrite Htok.
  unfold currentUser_settle, authAPI.getCurrentUser, axios_get.
  rewrite axios_request_eq. cbv zeta. rewrite status_is_401_reply.
  change (negb (_retry (new_config "get" "/api/auth/me" None))) with true.
  rewrite andb_true_r.
  unfold App, ProtectedRoute, useAuth. cbv zeta. cbn [isLoading ctx_user].
  destruct (bool_decide (status <$> resp = Some 401%Z)) eqn:H401;
    unfold currentUser_onError; unfold_actions;
    split_and!; try done;
    try apply lookup_delete_eq;
    try (by intros ->);
    try (apply bool_decide_eq_true in H401; done).
Qed.

Lemma failed_refetch_signs_out_witness :
  token_present signed_in = true ∧
  user (currentUser_refetch (Failure None) signed_in) = None ∧
  getItem "accessToken" (currentUser_refetch (Failure None) signed_in) = None ∧
  queryCache (currentUser_refetch (Failure None) signed_in) !! "currentUser" = Some alice.
Proof.
  split; [reflexivity|].
  destruct (failed_refetch_signs_out None signed_in [] eq_refl)
    as (H1 & H2 & H3 & _).
  split; [exact H1|]. split; [exact H2|]. rewrite H3. reflexivity.
Defined.
